(** * A shallow embedding of the daily video-merge pipeline of n8n-cleaner-app

    Sources: [src/main.py] ([get_yesterday_files], [merge_videos_sync],
    [merge_today_videos], the file browser and the [yt] endpoints) and
    [src/merge_helper.py] ([merge_videos_fast]).

    Strings.  A filename is modelled by its bytes on disk (a Rocq [string]
    is a byte string).  Python sees the [str] that [os.fsdecode] makes of
    them: UTF-8 decoding with the [surrogateescape] handler, where each byte
    that does not begin a well-formed UTF-8 sequence becomes the lone
    surrogate U+DC00+byte ([decode_se]).  Comparisons, the regular
    expression and [strptime] work on these code points.  A [str] holding a
    lone surrogate is what the strict UTF-8 encoder refuses ([valid_utf8]
    is false on the bytes behind it).

    Which characters the class [\d] matches, and the values [int()] gives
    them, come from the Unicode database of the running Python: the model
    takes that table as a parameter [decimal] ([unicodedata.decimal]);
    [ucd14_decimal] is the table of Unicode 14.0, the database of
    CPython 3.11.

    The file tree is a snapshot: the recursive enumeration [rglob] is a list
    of entries, each with the result of its [stat] (size, and the formatted
    modification time or the error formatting it raises). *)

From Stdlib Require Import String Ascii List Arith Lia ZArith NArith Bool.
From Stdlib Require Import Sorting.Permutation Sorting.Sorted.
Import ListNotations.

Local Open Scope nat_scope.

(* ------------------------------------------------------------------ *)
(** ** Characters and strings *)

Definition is_digit (c : ascii) : bool :=
  let n := nat_of_ascii c in (48 <=? n) && (n <=? 57).

Definition digit_val (c : ascii) : nat := nat_of_ascii c - 48.

Definition digit_char (k : nat) : ascii := ascii_of_nat (48 + k).

Definition dash : ascii := "-"%char.

(** [str.replace("\\", "/")] *)
Fixpoint replace_backslash (s : string) : string :=
  match s with
  | EmptyString => EmptyString
  | String c r =>
      String (if Ascii.eqb c "092"%char then "/"%char else c) (replace_backslash r)
  end.


(** [str.rfind('.')]: index of the last dot, if any. *)
Fixpoint rfind_dot (s : string) : option nat :=
  match s with
  | EmptyString => None
  | String c r =>
      match rfind_dot r with
      | Some i => Some (S i)
      | None => if Ascii.eqb c "."%char then Some 0 else None
      end
  end.

(** [PurePath.suffix] of a final path component:
    [i = name.rfind('.'); if 0 < i < len(name) - 1: return name[i:]]
    [else: return ''].  Taken on the bytes: the dot is a single byte that
    no multi-byte sequence contains, so "a character before the dot" and
    "a character after it" mean the same on bytes and on code points, and
    the bytes of the suffix decode to the suffix of the [str]. *)
Definition suffix (name : string) : string :=
  match rfind_dot name with
  | Some i =>
      if (0 <? i) && (i <? String.length name - 1)
      then substring i (String.length name - i) name
      else EmptyString
  | None => EmptyString
  end.

(** Decimal rendering of a natural number ([str(n)] / f-string). *)
Fixpoint digits_of_nat_aux (fuel n : nat) (acc : string) : string :=
  match fuel with
  | 0 => acc
  | S fuel' =>
      let acc' := String (digit_char (n mod 10)) acc in
      if n <? 10 then acc' else digits_of_nat_aux fuel' (n / 10) acc'
  end.

Definition string_of_nat (n : nat) : string := digits_of_nat_aux (S n) n EmptyString.

(* ------------------------------------------------------------------ *)
(** ** Code points: [os.fsdecode], [os.fsencode] and the [str] order *)

Definition byte_in (lo hi : N) (c : ascii) : bool :=
  (lo <=? N_of_ascii c)%N && (N_of_ascii c <=? hi)%N.

(** The byte allowed right after a lead byte [n]: [80..BF], narrowed after
    [E0] (no overlong form), [ED] (no surrogate), [F0] (no overlong form)
    and [F4] (nothing above U+10FFFF). *)
Definition second_ok (n : N) (c : ascii) : bool :=
  if (n =? 224)%N then byte_in 160 191 c
  else if (n =? 237)%N then byte_in 128 159 c
  else if (n =? 240)%N then byte_in 144 191 c
  else if (n =? 244)%N then byte_in 128 143 c
  else byte_in 128 191 c.

Definition cont (c : ascii) : N := (N_of_ascii c - 128)%N.

(** [os.fsdecode]: UTF-8 with [surrogateescape].  A well-formed sequence
    becomes its code point; a byte [b] that does not begin one becomes
    U+DC00+[b] (56320 + [b]) and decoding goes on at the next byte. *)
Fixpoint decode_se (s : string) : list N :=
  match s with
  | EmptyString => []
  | String c r =>
      let n := N_of_ascii c in
      if (n <? 128)%N then n :: decode_se r
      else if (194 <=? n)%N && (n <=? 223)%N then
        match r with
        | String c1 r1 =>
            if second_ok n c1 then ((n - 192) * 64 + cont c1)%N :: decode_se r1
            else (56320 + n)%N :: decode_se r
        | EmptyString => [(56320 + n)%N]
        end
      else if (224 <=? n)%N && (n <=? 239)%N then
        match r with
        | String c1 (String c2 r2) =>
            if second_ok n c1 && byte_in 128 191 c2
            then ((n - 224) * 4096 + cont c1 * 64 + cont c2)%N :: decode_se r2
            else (56320 + n)%N :: decode_se r
        | _ => (56320 + n)%N :: decode_se r
        end
      else if (240 <=? n)%N && (n <=? 244)%N then
        match r with
        | String c1 (String c2 (String c3 r3)) =>
            if second_ok n c1 && byte_in 128 191 c2 && byte_in 128 191 c3
            then ((n - 240) * 262144 + cont c1 * 4096 + cont c2 * 64 + cont c3)%N
                 :: decode_se r3
            else (56320 + n)%N :: decode_se r
        | _ => (56320 + n)%N :: decode_se r
        end
      else (56320 + n)%N :: decode_se r
  end.

(** [os.fsencode] of one code point: a surrogate U+DC80..U+DCFF gives back
    its byte, any other code point its UTF-8 form. *)
Definition encode_cp (c : N) : string :=
  if (c <? 128)%N then String (ascii_of_N c) EmptyString
  else if (56448 <=? c)%N && (c <=? 56575)%N then String (ascii_of_N (c - 56320)) EmptyString
  else if (c <? 2048)%N then
    String (ascii_of_N (192 + c / 64)) (String (ascii_of_N (128 + c mod 64)) EmptyString)
  else if (c <? 65536)%N then
    String (ascii_of_N (224 + c / 4096)) (String (ascii_of_N (128 + (c / 64) mod 64))
      (String (ascii_of_N (128 + c mod 64)) EmptyString))
  else
    String (ascii_of_N (240 + c / 262144)) (String (ascii_of_N (128 + (c / 4096) mod 64))
      (String (ascii_of_N (128 + (c / 64) mod 64))
        (String (ascii_of_N (128 + c mod 64)) EmptyString))).

Fixpoint encode_se (l : list N) : string :=
  match l with
  | [] => EmptyString
  | c :: l' => encode_cp c ++ encode_se l'
  end.

(** [==] on [str]. *)
Fixpoint cps_eqb (a b : list N) : bool :=
  match a, b with
  | [], [] => true
  | x :: a', y :: b' => (x =? y)%N && cps_eqb a' b'
  | _, _ => false
  end.

(** [<=] on [str]: lexicographic on code points. *)
Fixpoint cps_leb (a b : list N) : bool :=
  match a, b with
  | [], _ => true
  | _ :: _, [] => false
  | x :: a', y :: b' =>
      if (x <? y)%N then true else if (x =? y)%N then cps_leb a' b' else false
  end.

(** The order of [list.sort(key=name)] and [sorted(...)] on filenames:
    [str] order of the decoded names. *)
Definition name_le (a b : string) : bool := cps_leb (decode_se a) (decode_se b).

(** [str.lower] as far as the test [suffix.lower() in video_extensions]
    sees it.  [str.lower] lowers character by character; the characters
    that lower to ASCII are [A]..[Z] and U+212A KELVIN SIGN (to [k]), and
    every other non-ASCII character lowers to a string holding a non-ASCII
    character (checked over the whole Unicode 14.0 database, final sigma
    and special casing included).  As every extension is ASCII,
    [s.lower()] is one of them exactly when [map lower_cp s] is. *)
Definition lower_cp (c : N) : N :=
  if (65 <=? c)%N && (c <=? 90)%N then (c + 32)%N
  else if (c =? 8490)%N then 107%N
  else c.

(* ------------------------------------------------------------------ *)
(** ** Calendar dates ([datetime]) *)

Record Date := mkDate { year : nat; month : nat; day : nat }.

Definition is_leap (y : nat) : bool :=
  (Nat.eqb (y mod 4) 0 && negb (Nat.eqb (y mod 100) 0)) || Nat.eqb (y mod 400) 0.

Definition days_in_month (y m : nat) : nat :=
  match m with
  | 1 | 3 | 5 | 7 | 8 | 10 | 12 => 31
  | 4 | 6 | 9 | 11 => 30
  | 2 => if is_leap y then 29 else 28
  | _ => 0
  end.

(** The range [datetime] accepts: [MINYEAR = 1], [MAXYEAR = 9999]. *)
Definition valid_date (d : Date) : bool :=
  (1 <=? year d) && (year d <=? 9999) && (1 <=? month d) && (month d <=? 12)
  && (1 <=? day d) && (day d <=? days_in_month (year d) (month d)).

Definition date_eqb (a b : Date) : bool :=
  Nat.eqb (year a) (year b) && Nat.eqb (month a) (month b) && Nat.eqb (day a) (day b).

Definition pad2 (n : nat) : string :=
  String (digit_char (n / 10 mod 10)) (String (digit_char (n mod 10)) EmptyString).

Definition pad4 (n : nat) : string :=
  String (digit_char (n / 1000 mod 10)) (String (digit_char (n / 100 mod 10))
    (String (digit_char (n / 10 mod 10)) (String (digit_char (n mod 10)) EmptyString))).

(** [d.strftime("%Y-%m-%d")]; [%Y] is zero-padded to four digits
    (as CPython does on every platform since 3.13). *)
Definition strftime_date (d : Date) : string :=
  pad4 (year d) ++ String dash (pad2 (month d)) ++ String dash (pad2 (day d)).



(* ------------------------------------------------------------------ *)
(** ** Decimal digits ([unicodedata.decimal]) *)

(** The zeros of the 66 runs of ten decimal digits (category [Nd]) of
    Unicode 14.0. *)
Definition nd_zeros_14 : list N :=
  [0x30; 0x660; 0x6F0; 0x7C0; 0x966; 0x9E6; 0xA66; 0xAE6; 0xB66; 0xBE6; 0xC66; 0xCE6;
   0xD66; 0xDE6; 0xE50; 0xED0; 0xF20; 0x1040; 0x1090; 0x17E0; 0x1810; 0x1946; 0x19D0;
   0x1A80; 0x1A90; 0x1B50; 0x1BB0; 0x1C40; 0x1C50; 0xA620; 0xA8D0; 0xA900; 0xA9D0;
   0xA9F0; 0xAA50; 0xABF0; 0xFF10; 0x104A0; 0x10D30; 0x11066; 0x110F0; 0x11136; 0x111D0;
   0x112F0; 0x11450; 0x114D0; 0x11650; 0x116C0; 0x11730; 0x118E0; 0x11950; 0x11C50;
   0x11D50; 0x11DA0; 0x16A60; 0x16AC0; 0x16B50; 0x1D7CE; 0x1D7D8; 0x1D7E2; 0x1D7EC;
   0x1D7F6; 0x1E140; 0x1E2F0; 0x1E950; 0x1FBF0]%N.

Fixpoint nd_lookup (zs : list N) (c : N) : option nat :=
  match zs with
  | [] => None
  | z :: zs' => if (z <=? c)%N && (c <? z + 10)%N then Some (N.to_nat (c - z)) else nd_lookup zs' c
  end.

(** [unicodedata.decimal] of CPython 3.11 (Unicode 14.0). *)
Definition ucd14_decimal (c : N) : option nat := nd_lookup nd_zeros_14 c.

(** What every Unicode database agrees on: the ASCII characters with a
    decimal value are [0]..[9], and every value is a digit. *)
Definition decimal_ok (decimal : N -> option nat) : Prop :=
  (forall c, (c < 128)%N ->
     decimal c = if (48 <=? c)%N && (c <=? 57)%N then Some (N.to_nat c - 48) else None) /\
  (forall c k, decimal c = Some k -> k < 10).

(** What the spec's words call "of the form YYYY-MM-DD": ten ASCII
    characters [dddd-dd-dd]. *)
Definition is_yyyy_mm_dd (s : string) : bool :=
  match s with
  | String y1 (String y2 (String y3 (String y4 (String h1
      (String m1 (String m2 (String h2 (String d1 (String d2 EmptyString))))))))) =>
      is_digit y1 && is_digit y2 && is_digit y3 && is_digit y4
      && Ascii.eqb h1 dash && is_digit m1 && is_digit m2
      && Ascii.eqb h2 dash && is_digit d1 && is_digit d2
  | _ => false
  end.

(* ------------------------------------------------------------------ *)
(** ** Python's [round(a / b, 2)], in hundredths

    [a / b] is exact in binary floating point for the sizes at hand
    ([b] a power of two, [a < 2^53]), and [round] rounds the exact value
    half to even. *)

Definition round_half_even_div (a b : nat) : nat :=
  let q := a / b in
  let r := a mod b in
  if 2 * r <? b then q else if b <? 2 * r then S q else if Nat.even q then q else S q.

Definition hundredths_div (size divisor : nat) : nat :=
  round_half_even_div (size * 100) divisor.

(* ------------------------------------------------------------------ *)
(** ** UTF-8 validity (what Python's strict UTF-8 codec accepts) *)

Definition is_cont (c : ascii) : bool :=
  let n := nat_of_ascii c in (128 <=? n) && (n <=? 191).

Definition in_range (lo hi : nat) (c : ascii) : bool :=
  let n := nat_of_ascii c in (lo <=? n) && (n <=? hi).

Fixpoint valid_utf8 (s : string) : bool :=
  match s with
  | EmptyString => true
  | String c r =>
      let n := nat_of_ascii c in
      if n <? 128 then valid_utf8 r
      else if (194 <=? n) && (n <=? 223) then
        match r with
        | String c1 r1 => is_cont c1 && valid_utf8 r1
        | EmptyString => false
        end
      else if (224 <=? n) && (n <=? 239) then
        match r with
        | String c1 (String c2 r2) =>
            (if n =? 224 then in_range 160 191 c1
             else if n =? 237 then in_range 128 159 c1 else is_cont c1)
            && is_cont c2 && valid_utf8 r2
        | _ => false
        end
      else if (240 <=? n) && (n <=? 244) then
        match r with
        | String c1 (String c2 (String c3 r3)) =>
            (if n =? 240 then in_range 144 191 c1
             else if n =? 244 then in_range 128 143 c1 else is_cont c1)
            && is_cont c2 && is_cont c3 && valid_utf8 r3
        | _ => false
        end
      else false
  end.

(* ------------------------------------------------------------------ *)
(** ** Files under [STATICFILES_DIR = Path("n8n_ffmpeg")] *)

(** A path relative to [STATICFILES_DIR]: its directory part ([""] for
    a file directly under the root) and its final component [Path.name]. *)
Record Path := mkPath { p_dir : string; p_name : string }.

Definition path_eqb (a b : Path) : bool :=
  String.eqb (p_dir a) (p_dir b) && String.eqb (p_name a) (p_name b).

(** [str(item.relative_to(STATICFILES_DIR))] *)
Definition relative_path (p : Path) : string :=
  if String.eqb (p_dir p) EmptyString then p_name p
  else p_dir p ++ String "/"%char (p_name p).

(** The [modified] field: [datetime.fromtimestamp(st_mtime).strftime(...)],
    or the exception [fromtimestamp] raises for a timestamp out of the
    platform's range ([ValueError], [OverflowError] or [OSError]), with its
    [str]. *)
Inductive Modified := Formatted (text : string) | FromtimestampError (msg : string).

Coercion Formatted : string >-> Modified.

(** One entry yielded by [STATICFILES_DIR.rglob("*")], with [is_file()]
    and the [stat()] fields the code reads. *)
Record FileEntry := mkEntry {
  fe_path : Path;
  fe_is_file : bool;
  fe_size : nat;             (* st_size *)
  fe_modified : Modified     (* from st_mtime *)
}.

(** [video_extensions] *)
Definition video_extensions : list string :=
  [".mp4"; ".avi"; ".mov"; ".mkv"; ".flv"; ".wmv"; ".webm"]%string.

(** [ext in video_extensions], on the code points of [ext]. *)
Definition is_video_ext (ext : list N) : bool :=
  existsb (fun x => cps_eqb ext (decode_se x)) video_extensions.

Section Unicode.

(** [unicodedata.decimal] of the running Python: the digit value of a
    character of category [Nd], [None] for any other character.  The class
    [\d] of a [str] pattern matches exactly the [Nd] characters, and
    [int()] reads a run of them with these values. *)
Variable decimal : N -> option nat.

Definition is_dec (c : N) : bool := match decimal c with Some _ => true | None => false end.

Definition dec_val (c : N) : nat := match decimal c with Some k => k | None => 0 end.

(* ------------------------------------------------------------------ *)
(** ** The date regular expression [(\d{4}-\d{2}-\d{2})] *)

(** A match of the pattern at the start of [s] (45 is [-]). *)
Definition match_at (s : list N) : option (list N) :=
  match s with
  | y1 :: y2 :: y3 :: y4 :: h1 :: m1 :: m2 :: h2 :: d1 :: d2 :: _ =>
      if is_dec y1 && is_dec y2 && is_dec y3 && is_dec y4
         && (h1 =? 45)%N && is_dec m1 && is_dec m2
         && (h2 =? 45)%N && is_dec d1 && is_dec d2
      then Some [y1; y2; y3; y4; h1; m1; m2; h2; d1; d2]
      else None
  | _ => None
  end.

(** [date_pattern.search(name)], then [.group(1)]: the leftmost match. *)
Fixpoint search_date (s : list N) : option (list N) :=
  match match_at s with
  | Some m => Some m
  | None =>
      match s with
      | [] => None
      | _ :: r => search_date r
      end
  end.

(** The filter the code applies to [item.name]:
    [match and match.group(1) == today_str]. *)
Definition date_matches (name today_str : string) : bool :=
  match search_date (decode_se name) with
  | Some m => cps_eqb m (decode_se today_str)
  | None => false
  end.

(** Following the spec's words (section 4.1), for comparison with the code:
    [extract] parses the first pattern match as a calendar date (each run
    of digits read as [int()] reads it) and treats an invalid one as no
    match; [matches] compares the extracted date. *)
Definition spec_parse_match (m : list N) : Date :=
  match m with
  | y1 :: y2 :: y3 :: y4 :: _ :: m1 :: m2 :: _ :: d1 :: d2 :: _ =>
      mkDate (dec_val y1 * 1000 + dec_val y2 * 100 + dec_val y3 * 10 + dec_val y4)
             (dec_val m1 * 10 + dec_val m2) (dec_val d1 * 10 + dec_val d2)
  | _ => mkDate 0 0 0
  end.

Definition spec_extract (name : string) : option Date :=
  match search_date (decode_se name) with
  | Some m => let d := spec_parse_match m in if valid_date d then Some d else None
  | None => None
  end.

Definition spec_matches (name : string) (target : Date) : bool :=
  match spec_extract name with
  | Some d => date_eqb d target
  | None => false
  end.

(** Whether the first pattern match of a filename is written in ASCII. *)
Definition first_match_ascii (name : string) : bool :=
  match search_date (decode_se name) with
  | Some m => forallb (fun c => (c <? 128)%N) m
  | None => false
  end.

(* ------------------------------------------------------------------ *)
(** ** [datetime.strptime(date_now, "%Y-%m-%d")]

    CPython's [_strptime] turns the format into the regular expression
    [(?P<Y>\d\d\d\d)-(?P<m>1[0-2]|0[1-9]|[1-9])-(?P<d>3[01]|[12]\d|0[1-9]|[1-9]| [1-9])],
    applies [re.match] (alternatives tried left to right, with
    backtracking), raises [ValueError] when unconverted data remains, reads
    each group with [int()], and then builds the date, raising
    [ValueError] for a day out of range or year 0.  [None] is the
    [ValueError].  The classes [[0-2]], [[1-9]] and the like are ASCII;
    [\d] is any decimal digit. *)

(** An ASCII digit between [lo] and [hi]. *)
Definition class_in (lo hi : nat) (c : N) : bool :=
  (N.of_nat (48 + lo) <=? c)%N && (c <=? N.of_nat (48 + hi))%N.

Definition ascii_val (c : N) : nat := N.to_nat c - 48.

(** The alternatives of [(?P<m>1[0-2]|0[1-9]|[1-9])] at the start of [s],
    in the order the regular expression engine tries them. *)
Definition m_alts (s : list N) : list (nat * list N) :=
  (match s with
   | a :: b :: r => if (a =? 49)%N && class_in 0 2 b then [(10 + ascii_val b, r)] else []
   | _ => [] end)
  ++ (match s with
   | a :: b :: r => if (a =? 48)%N && class_in 1 9 b then [(ascii_val b, r)] else []
   | _ => [] end)
  ++ (match s with
   | a :: r => if class_in 1 9 a then [(ascii_val a, r)] else []
   | _ => [] end).

(** The alternatives of [(?P<d>3[01]|[12]\d|0[1-9]|[1-9]| [1-9])]. *)
Definition d_alts (s : list N) : list (nat * list N) :=
  (match s with
   | a :: b :: r => if (a =? 51)%N && class_in 0 1 b then [(30 + ascii_val b, r)] else []
   | _ => [] end)
  ++ (match s with
   | a :: b :: r => if class_in 1 2 a && is_dec b then [(ascii_val a * 10 + dec_val b, r)] else []
   | _ => [] end)
  ++ (match s with
   | a :: b :: r => if (a =? 48)%N && class_in 1 9 b then [(ascii_val b, r)] else []
   | _ => [] end)
  ++ (match s with
   | a :: r => if class_in 1 9 a then [(ascii_val a, r)] else []
   | _ => [] end)
  ++ (match s with
   | a :: b :: r => if (a =? 32)%N && class_in 1 9 b then [(ascii_val b, r)] else []
   | _ => [] end).

Fixpoint first_some {A B : Type} (f : A -> option B) (l : list A) : option B :=
  match l with
  | [] => None
  | x :: l' => match f x with Some y => Some y | None => first_some f l' end
  end.

(** After a month alternative: the literal [-], then the first day
    alternative that matches (nothing follows it in the pattern). *)
Definition after_month (mr : nat * list N) : option (nat * nat * list N) :=
  let '(m, r) := mr in
  match r with
  | h :: r' =>
      if (h =? 45)%N then
        match d_alts r' with
        | (dv, rest) :: _ => Some (m, dv, rest)
        | [] => None
        end
      else None
  | [] => None
  end.

Definition strptime_ymd (s : string) : option Date :=
  match decode_se s with
  | y1 :: y2 :: y3 :: y4 :: h :: r =>
      if is_dec y1 && is_dec y2 && is_dec y3 && is_dec y4 && (h =? 45)%N then
        match first_some after_month (m_alts r) with
        | Some (m, dv, []) =>
            let d := mkDate (dec_val y1 * 1000 + dec_val y2 * 100
                             + dec_val y3 * 10 + dec_val y4) m dv in
            if valid_date d then Some d else None
        | Some (_, _, _ :: _) | None => None
        end
      else None
  | _ => None
  end.

(** [if date_now: current_date = strptime(...)] [else: datetime.now()]:
    an absent or empty [date_now] (both falsy) selects the clock. *)
Definition resolve_date (now : Date) (date_now : option string) : option Date :=
  match date_now with
  | None => Some now
  | Some s => if String.eqb s EmptyString then Some now else strptime_ymd s
  end.

(** Whether [pat] occurs in [s] as a substring. *)
Fixpoint contains (pat s : string) : bool :=
  String.prefix pat s ||
  match s with
  | EmptyString => false
  | String _ r => contains pat r
  end.

(** The discovery loop of [merge_today_videos]:
    [if item.is_file() and item.suffix.lower() in video_extensions]
    [and match and match.group(1) == today_str: video_files.append(item)]. *)
Definition is_candidate (today_str : string) (e : FileEntry) : bool :=
  fe_is_file e && is_video_ext (map lower_cp (decode_se (suffix (p_name (fe_path e)))))
  && date_matches (p_name (fe_path e)) today_str.

Definition discover (entries : list FileEntry) (today_str : string) : list Path :=
  map fe_path (filter (is_candidate today_str) entries).


(** [list.sort(key=...)] on [str] keys: a stable sort.  Every stable sort
    by the same key returns the same list; insertion sort is one. *)
Fixpoint insert_by {A : Type} (key : A -> string) (x : A) (l : list A) : list A :=
  match l with
  | [] => [x]
  | y :: l' => if name_le (key x) (key y) then x :: l else y :: insert_by key x l'
  end.

Fixpoint sort_by {A : Type} (key : A -> string) (l : list A) : list A :=
  match l with
  | [] => []
  | x :: l' => insert_by key x (sort_by key l')
  end.

(** [video_files.sort(key=lambda x: x.name)] after discovery. *)
Definition ordered_candidates (entries : list FileEntry) (today_str : string) : list Path :=
  sort_by p_name (discover entries today_str).

(** [output_path = STATICFILES_DIR / f"{today_str}.mp4"] *)
Definition output_path_for (today_str : string) : Path :=
  mkPath EmptyString (today_str ++ ".mp4").

(** Writing a file at a path: an existing entry is overwritten in place. *)
Fixpoint put_file (e : FileEntry) (es : list FileEntry) : list FileEntry :=
  match es with
  | [] => [e]
  | e' :: es' => if path_eqb (fe_path e') (fe_path e) then e :: es' else e' :: put_file e es'
  end.

(** [path.stat().st_size] of a regular file, [None] when absent. *)
Fixpoint lookup_size (p : Path) (es : list FileEntry) : option nat :=
  match es with
  | [] => None
  | e :: es' => if path_eqb (fe_path e) p && fe_is_file e then Some (fe_size e) else lookup_size p es'
  end.

(* ------------------------------------------------------------------ *)
(** ** The world the merge runs in *)

Inductive Mode := FastCopy | Reencode.

Definition mode_eqb (a b : Mode) : bool :=
  match a, b with
  | FastCopy, FastCopy | Reencode, Reencode => true
  | _, _ => false
  end.

(** Observable steps: a strategy entered ([merge_videos_fast] or
    [merge_videos_sync] called with its inputs and output path), and the
    transcoder run ([ffmpeg ... .run()]) with the manifest it reads. *)
Inductive Event :=
| Invoked (m : Mode) (inputs : list Path) (out : Path)
| Transcoded (m : Mode) (manifest : nat) (inputs : list Path) (out : Path).

Record World := mkWorld {
  w_root_exists : bool;          (* STATICFILES_DIR.exists() *)
  w_entries : list FileEntry;    (* STATICFILES_DIR.rglob("*"), in order *)
  w_tmp : list nat;              (* files of the temporary directory *)
  w_log : list Event             (* oldest first *)
}.

Definition log_event (ev : Event) (w : World) : World :=
  mkWorld (w_root_exists w) (w_entries w) (w_tmp w) (w_log w ++ [ev]).

Definition set_entries (es : list FileEntry) (w : World) : World :=
  mkWorld (w_root_exists w) es (w_tmp w) (w_log w).

Definition set_tmp (t : list nat) (w : World) : World :=
  mkWorld (w_root_exists w) (w_entries w) t (w_log w).

(** [tempfile.NamedTemporaryFile(delete=False)] creates a file under a name
    no file of the temporary directory has. *)
Definition fresh_tmp (t : list nat) : nat := S (list_max t).

(** [Path(concat_file).unlink(missing_ok=True)] *)
Definition remove_tmp (n : nat) (w : World) : World :=
  set_tmp (filter (fun k => negb (Nat.eqb k n)) (w_tmp w)) w.

(** What one transcoder run ([.overwrite_output().run(...)]) does:
    it succeeds having written [output_path] ([size], formatted mtime);
    or raises [ffmpeg.Error] with its captured [stderr] bytes, possibly
    having left a (partial) file at [output_path]; or raises another
    exception (for instance when the binary is missing). *)
Inductive RunOutcome :=
| RunOk (size : nat) (modified : string)
| RunFfmpegError (stderr : string) (partial : option (nat * string))
| RunOtherExc (msg : string).

(** Python exceptions that leave a strategy function. *)
Inductive PyExc :=
| UnicodeEncodeError
| UnicodeDecodeError
| OtherExc (msg : string).

Definition str_exc (e : PyExc) : string :=
  match e with
  | UnicodeEncodeError => "'utf-8' codec can't encode character: surrogates not allowed"
  | UnicodeDecodeError => "'utf-8' codec can't decode byte: invalid start byte"
  | OtherExc m => m
  end.

(** The dictionary a strategy returns. *)
Inductive MergeResult :=
| MRSuccess (message : string) (output_file : string) (output_size : nat)
            (output_size_mb : nat) (* hundredths *)
| MRError (message : string).

Definition is_error (r : MergeResult) : bool :=
  match r with MRError _ => true | MRSuccess _ _ _ _ => false end.

Section Merge.

(** The absolute path of [STATICFILES_DIR] (the prefix [absolute()] adds). *)
Variable root_abs : string.

(** The external transcoder: the outcome of one run, given the strategy
    (which fixes the ffmpeg options), the inputs, the output path and the
    world at the moment of the run. *)
Variable ffmpeg : Mode -> list Path -> Path -> World -> RunOutcome.

(** The clock read by [datetime.now()]. *)
Variable now : Date.

Definition abs_path (p : Path) : string :=
  root_abs ++ String "/"%char (relative_path p).

(** [f.write(f"file '{file_path}'\n")] with
    [file_path = str(video_file.absolute()).replace("\\", "/")]. *)
Definition manifest_line (p : Path) : string :=
  "file '" ++ replace_backslash (abs_path p) ++ "'" ++ String "010"%char EmptyString.

(** A write on a text file opened with [encoding="utf-8"] raises
    [UnicodeEncodeError] exactly when the [str] holds a lone surrogate, i.e.
    when the bytes behind it are not UTF-8. *)
Definition line_encodable (p : Path) : bool := valid_utf8 (manifest_line p).

(** The effect of a transcoder run on the files under the root. *)
Definition apply_outcome (out : Path) (oc : RunOutcome) (es : list FileEntry) : list FileEntry :=
  match oc with
  | RunOk size modified => put_file (mkEntry out true size modified) es
  | RunFfmpegError _ (Some (size, modified)) => put_file (mkEntry out true size modified) es
  | RunFfmpegError _ None | RunOtherExc _ => es
  end.

Definition success_message (m : Mode) (n : nat) : string :=
  match m with
  | FastCopy =>
      "Successfully merged " ++ string_of_nat n ++ " videos (FAST mode - no re-encoding)"
  | Reencode => "Successfully merged " ++ string_of_nat n ++ " videos"
  end.

Definition ffmpeg_error_prefix (m : Mode) : string :=
  match m with
  | FastCopy => "FFmpeg fast merge error: "
  | Reencode => "FFmpeg error: "
  end.

(** [str(e)] of an [ffmpeg.Error]. *)
Definition ffmpeg_error_str : string := "ffmpeg error (see stderr output for detail)".

Definition unexpected (msg : string) : MergeResult := MRError ("Unexpected error: " ++ msg).

(** [except ffmpeg.Error as e:]
    [error_message = e.stderr.decode() if e.stderr else str(e)].
    A [decode] failure is raised inside the handler, so the sibling
    [except Exception] does not see it: it leaves the function. *)
Definition on_ffmpeg_error (m : Mode) (stderr : string) : MergeResult + PyExc :=
  if String.eqb stderr EmptyString then inl (MRError (ffmpeg_error_prefix m ++ ffmpeg_error_str))
  else if valid_utf8 stderr then inl (MRError (ffmpeg_error_prefix m ++ stderr))
  else inr UnicodeDecodeError.

(** The inner [try] after the transcoder call: the success dictionary reads
    [output_path.stat().st_size]; exceptions go to the outer handlers. *)
Definition after_run (m : Mode) (n : nat) (out : Path) (oc : RunOutcome)
    (es : list FileEntry) : MergeResult + PyExc :=
  match oc with
  | RunOk _ _ =>
      match lookup_size out es with
      | Some sz =>
          inl (MRSuccess (success_message m n) (p_name out) sz (hundredths_div sz 1048576))
      | None => inl (unexpected "[Errno 2] No such file or directory")
      end
  | RunFfmpegError stderr _ => on_ffmpeg_error m stderr
  | RunOtherExc msg => inl (unexpected msg)
  end.

(** [merge_videos_fast] ([merge_helper.py]) and [merge_videos_sync]
    ([main.py]) share this shape; they differ in the ffmpeg options (the
    mode handed to the transcoder) and in their messages.
    - [with NamedTemporaryFile(delete=False) as f]: the manifest is created;
      a line that cannot be encoded raises out of the [with] block, past the
      inner [try]/[finally], into [except Exception];
    - otherwise the transcoder runs inside [try]/[finally], and the
      [finally] unlinks the manifest before any handler runs. *)
Definition merge_strategy (m : Mode) (video_files : list Path) (out : Path) (w : World)
    : World * (MergeResult + PyExc) :=
  let w0 := log_event (Invoked m video_files out) w in
  let concat_file := fresh_tmp (w_tmp w0) in
  let w1 := set_tmp (concat_file :: w_tmp w0) w0 in
  if forallb line_encodable video_files then
    let w2 := log_event (Transcoded m concat_file video_files out) w1 in
    let oc := ffmpeg m video_files out w2 in
    let w3 := set_entries (apply_outcome out oc (w_entries w2)) w2 in
    let res := after_run m (length video_files) out oc (w_entries w3) in
    (remove_tmp concat_file w3, res)
  else (w1, inl (unexpected (str_exc UnicodeEncodeError))).

Definition merge_videos_fast := merge_strategy FastCopy.
Definition merge_videos_sync := merge_strategy Reencode.

(** The JSON response of [GET /api/files/merge-today]. *)
Inductive MergeResponse :=
| MergeOk (message today_date : string) (input_files : list string)
          (total_input_files : nat) (output_file : string)
          (output_size output_size_mb : nat) (output_url : string)
| MergeErr (status_code : nat) (message : string).

Definition merge_status (r : MergeResponse) : nat :=
  match r with
  | MergeOk _ _ _ _ _ _ _ _ => 200
  | MergeErr c _ => c
  end.

(** The last step: a success dictionary becomes the 200 response, an error
    dictionary a 500, and an exception escaping the worker is caught by
    the handler's [except Exception] as a 500. *)
Definition respond (today_str : string) (video_files : list Path)
    (r : MergeResult + PyExc) : MergeResponse :=
  match r with
  | inl (MRSuccess msg of sz mb) =>
      MergeOk msg today_str (map p_name video_files) (length video_files) of sz mb
              ("/static/" ++ of)
  | inl (MRError msg) => MergeErr 500 msg
  | inr e => MergeErr 500 (str_exc e)
  end.

(** [merge_today_videos] *)
Definition merge_today_videos (date_now : option string) (w : World) : World * MergeResponse :=
  match resolve_date now date_now with
  | None => (w, MergeErr 400 "Invalid date format. Use YYYY-MM-DD")
  | Some current_date =>
      let today_str := strftime_date current_date in
      if negb (w_root_exists w) then (w, MergeErr 404 "n8n_ffmpeg folder not found")
      else
        match discover (w_entries w) today_str with
        | [] => (w, MergeErr 404 ("No video files found for " ++ today_str))
        | _ :: _ =>
            let video_files := ordered_candidates (w_entries w) today_str in
            let out := output_path_for today_str in
            let (w1, r1) := merge_videos_fast video_files out w in
            match r1 with
            | inl (MRError _) =>
                let (w2, r2) := merge_videos_sync video_files out w1 in
                (w2, respond today_str video_files r2)
            | _ => (w1, respond today_str video_files r1)
            end
        end
  end.

(** Whether the run after discovery ends with a success dictionary:
    FastCopy's, or ReencodeFallback's after a FastCopy error dictionary. *)
Definition strategies_succeed (video_files : list Path) (out : Path) (w : World) : bool :=
  let (w1, r1) := merge_videos_fast video_files out w in
  match r1 with
  | inl (MRSuccess _ _ _ _) => true
  | inl (MRError _) =>
      match snd (merge_videos_sync video_files out w1) with
      | inl (MRSuccess _ _ _ _) => true
      | _ => false
      end
  | inr _ => false
  end.










(** [merge_today_videos_job], the scheduled run at 18:00: the same
    discovery and strategies for [datetime.now()], with the outcome only
    logged; [except Exception] logs a strategy that raises. *)
Inductive JobEnd :=
| JobNoRoot
| JobNoVideos
| JobMerged (r : MergeResult + PyExc).

Definition merge_today_videos_job (w : World) : World * JobEnd :=
  let today_str := strftime_date now in
  if negb (w_root_exists w) then (w, JobNoRoot)
  else
    match discover (w_entries w) today_str with
    | [] => (w, JobNoVideos)
    | _ :: _ =>
        let video_files := ordered_candidates (w_entries w) today_str in
        let out := output_path_for today_str in
        let (w1, r1) := merge_videos_fast video_files out w in
        match r1 with
        | inl (MRError _) =>
            let (w2, r2) := merge_videos_sync video_files out w1 in (w2, JobMerged r2)
        | _ => (w1, JobMerged r1)
        end
    end.

End Merge.

(** A token [dddd-dd-dd] of ten code points, the digits decimal. *)
Definition date_token (m : list N) : Prop :=
  exists y1 y2 y3 y4 h1 m1 m2 h2 d1 d2,
    m = [y1; y2; y3; y4; h1; m1; m2; h2; d1; d2]
    /\ is_dec y1 = true /\ is_dec y2 = true /\ is_dec y3 = true /\ is_dec y4 = true
    /\ h1 = 45%N /\ is_dec m1 = true /\ is_dec m2 = true /\ h2 = 45%N
    /\ is_dec d1 = true /\ is_dec d2 = true.

End Unicode.

(** The strategy invocations recorded in a stretch of the log. *)
Definition invocations (evs : list Event) : list (Mode * list Path * Path) :=
  flat_map (fun ev => match ev with
                      | Invoked m L out => [(m, L, out)]
                      | Transcoded _ _ _ _ => []
                      end) evs.

(** Ordered by a [str] key. *)
Definition key_le {A : Type} (key : A -> string) (x y : A) : Prop :=
  name_le (key x) (key y) = true.

(* ================================================================== *)
(** * The file browser and the [yt] endpoints *)

(** The file tree as the operating system holds it: each node (a file with
    its size, or a directory) under its absolute path, given as the list of
    its component names; [[]] is [/], which always exists.  The list order
    is the order in which [iterdir] and [rglob] enumerate.  [t_cwd] is the
    working directory of the process.  Symbolic links, permissions,
    concurrent changes and I/O failures are not modelled; without symbolic
    links, [Path.resolve] is the lexical normalisation [resolve_parts].
    The model does not raise on a request path with a NUL byte or on one
    too long for the system ([os_path_ok]); the properties state these
    conditions where they matter.  A [yt] folder that is a regular file is
    left out (how [realpath], [stat] and [rglob] treat those depends on the
    Python version).  A redirect is modelled by the
    [url] handed to [RedirectResponse]. *)
Inductive Node := NFile (size : nat) | NDir.

Record Tree := mkTree { t_cwd : list string; t_nodes : list (list string * Node) }.

Fixpoint parts_eqb (a b : list string) : bool :=
  match a, b with
  | [], [] => true
  | x :: a', y :: b' => String.eqb x y && parts_eqb a' b'
  | _, _ => false
  end.

(** [a] is [b] or an ancestor of [b]. *)
Fixpoint parts_prefix (a b : list string) : bool :=
  match a, b with
  | [], _ => true
  | x :: a', y :: b' => String.eqb x y && parts_prefix a' b'
  | _ :: _, [] => false
  end.

Fixpoint lookup_node (p : list string) (ns : list (list string * Node)) : option Node :=
  match ns with
  | [] => None
  | (q, n) :: ns' => if parts_eqb p q then Some n else lookup_node p ns'
  end.

Definition node_at (t : Tree) (p : list string) : option Node :=
  match p with
  | [] => Some NDir
  | _ :: _ => lookup_node p (t_nodes t)
  end.

(** [Path.exists], [Path.is_dir], [Path.is_file]. *)
Definition exists_at (t : Tree) (p : list string) : bool :=
  match node_at t p with Some _ => true | None => false end.

Definition is_dir_at (t : Tree) (p : list string) : bool :=
  match node_at t p with Some NDir => true | _ => false end.

Definition is_file_at (t : Tree) (p : list string) : bool :=
  match node_at t p with Some (NFile _) => true | _ => false end.

(** [stat().st_size] of an existing file. *)
Definition size_at (t : Tree) (p : list string) : nat :=
  match node_at t p with Some (NFile sz) => sz | _ => 0 end.

(** [Path.unlink] and [shutil.rmtree] (the directory and all below it). *)
Definition unlink (p : list string) (t : Tree) : Tree :=
  mkTree (t_cwd t) (filter (fun qn => negb (parts_eqb p (fst qn))) (t_nodes t)).

Definition rmtree (p : list string) (t : Tree) : Tree :=
  mkTree (t_cwd t) (filter (fun qn => negb (parts_prefix p (fst qn))) (t_nodes t)).

(** Writing a node: an existing one is replaced in place, a new one is
    added. *)
Fixpoint put_node_list (p : list string) (n : Node) (ns : list (list string * Node))
    : list (list string * Node) :=
  match ns with
  | [] => [(p, n)]
  | (q, m) :: ns' => if parts_eqb p q then (q, n) :: ns' else (q, m) :: put_node_list p n ns'
  end.

Definition put_node (p : list string) (n : Node) (t : Tree) : Tree :=
  mkTree (t_cwd t) (put_node_list p n (t_nodes t)).

(** [iterdir()] and the files [rglob("*")] yields, in enumeration order. *)
Definition is_child (p q : list string) : bool :=
  parts_prefix p q && (length q =? S (length p)).

Definition children (t : Tree) (p : list string) : list (list string * Node) :=
  filter (fun qn => is_child p (fst qn)) (t_nodes t).

Definition is_file_node (n : Node) : bool :=
  match n with NFile _ => true | NDir => false end.

Definition files_under (t : Tree) (p : list string) : list (list string * Node) :=
  filter (fun qn => parts_prefix p (fst qn) && negb (parts_eqb p (fst qn)) && is_file_node (snd qn))
         (t_nodes t).

(** [s.split("/")] *)
Fixpoint split_slash (s : string) : list string :=
  match s with
  | EmptyString => [EmptyString]
  | String c s' =>
      if Ascii.eqb c "/"%char then EmptyString :: split_slash s'
      else match split_slash s' with
           | h :: rest => String c h :: rest
           | [] => [String c EmptyString]
           end
  end.

Definition is_abs (s : string) : bool :=
  match s with String c _ => Ascii.eqb c "/"%char | EmptyString => false end.

Definition tail_str (s : string) : string :=
  match s with String _ s' => s' | EmptyString => EmptyString end.

(** The parts [pathlib] keeps after the anchor: empty and [.] components
    are dropped, [..] is kept. *)
Definition path_parts (s : string) : list string :=
  filter (fun c => negb (String.eqb c EmptyString || String.eqb c "."%string)) (split_slash s).

(** [os.path.realpath] without symbolic links: [..] drops the last
    component ([/..] is [/]), any other component is appended. *)
Definition resolve_step (acc : list string) (c : string) : list string :=
  if String.eqb c ".."%string then removelast acc else acc ++ [c].

Definition resolve_parts (acc : list string) (cs : list string) : list string :=
  fold_left resolve_step cs acc.

(** [str()] of an absolute path. *)
Definition str_abs (p : list string) : string :=
  match p with
  | [] => "/"%string
  | _ :: _ => String.concat EmptyString (map (fun c => String "/"%char c) p)
  end.

(** The two folders the endpoints work in, relative to the working
    directory: [STATICFILES_DIR = Path("n8n_ffmpeg")] and [Path("yt")]. *)
Definition n8n_dir : string := "n8n_ffmpeg"%string.
Definition yt_dir : string := "yt"%string.

(** [base.resolve()] *)
Definition root_res (t : Tree) (base : string) : list string :=
  resolve_parts (t_cwd t) (path_parts base).

(** [(base / rel).resolve()]: an absolute [rel] replaces [base]. *)
Definition target_res (t : Tree) (base rel : string) : list string :=
  if is_abs rel then resolve_parts [] (path_parts rel)
  else resolve_parts (t_cwd t) (path_parts base ++ path_parts rel).

(** The access check of the endpoints:
    [str(target_path).startswith(str(base.resolve()))]. *)
Definition access_ok (t : Tree) (base rel : string) : bool :=
  String.prefix (str_abs (root_res t base)) (str_abs (target_res t base rel)).

(** [str(Path(s))] and [str(Path(s).parent)]: the anchor is [/], or [//]
    for exactly two leading slashes; an empty result is [.]. *)
Definition py_root (s : string) : string :=
  if is_abs s then
    if is_abs (tail_str s) then
      if is_abs (tail_str (tail_str s)) then "/"%string else "//"%string
    else "/"%string
  else EmptyString.

Definition py_str (root : string) (parts : list string) : string :=
  match root, parts with
  | EmptyString, [] => "."%string
  | _, _ => root ++ String.concat "/" parts
  end.

Definition py_parent_str (s : string) : string :=
  py_str (py_root s) (removelast (path_parts s)).

(** The redirect after a deletion:
    [parent = str(Path(path).parent)];
    ["/"] if it is ["."], else [f"/folder/{parent}"]. *)
Definition redirect_for (path : string) : string :=
  let parent := py_parent_str path in
  if String.eqb parent "."%string then "/"%string else ("/folder/" ++ parent)%string.

(** [posixpath.normpath]. *)
Definition normpath_step (initial : bool) (acc : list string) (c : string) : list string :=
  if String.eqb c EmptyString || String.eqb c "."%string then acc
  else if negb (String.eqb c ".."%string) || (negb initial && match acc with [] => true | _ => false end)
          || match acc with [] => false | _ => String.eqb (last acc EmptyString) ".."%string end
  then acc ++ [c]
  else removelast acc.

Definition normpath (s : string) : string :=
  match s with
  | EmptyString => "."%string
  | _ =>
      let init := py_root s in
      let comps := fold_left (normpath_step (is_abs s)) (split_slash s) [] in
      match (init ++ String.concat "/" comps)%string with
      | EmptyString => "."%string
      | r => r
      end
  end.

(** [ZipInfo.from_file(..., arcname)]: the arcname is normalised and its
    leading slashes are removed; [arcname[0]] of an empty name raises
    [IndexError] ([None]). *)
Fixpoint lstrip_slash (s : string) : string :=
  match s with
  | String c s' => if Ascii.eqb c "/"%char then lstrip_slash s' else s
  | EmptyString => EmptyString
  end.

Definition zip_arcname (p : string) : option string :=
  let fix go (s : string) : option string :=
    match s with
    | String c s' => if Ascii.eqb c "/"%char then go s' else Some s
    | EmptyString => None
    end in
  go (normpath p).

(** The exceptions these endpoints can meet; [str(e)] of each is the
    Python and OS version's text, left abstract as [exc_text]. *)
Inductive PyError :=
| ENotRelative (path other : string)   (* ValueError of PurePath.relative_to *)
| EIndex                               (* IndexError *)
| EOS (errno : nat) (filename : string) (* OSError *)
| EHttp (status_code : nat) (detail : string) (* HTTPException *)
| EEncode                              (* UnicodeEncodeError of a JSON body *)
| EZipTime (p : list string).          (* a modification time a ZIP entry cannot hold *)

(** A row of the file browser's table. *)
Record Item := mkItem {
  it_name : string; it_type : string; it_is_dir : bool; it_size : string; it_path : string
}.

(** [f"{x:.2f}"] of a value given in hundredths (the decimal digits of an
    exact binary value, rounded half to even). *)
Definition fmt_hundredths (h : nat) : string :=
  (string_of_nat (h / 100) ++ "." ++ pad2 (h mod 100))%string.

Definition folder_icon : string := String (ascii_of_nat 240) (String (ascii_of_nat 159)
  (String (ascii_of_nat 147) (String (ascii_of_nat 129) EmptyString))).
Definition file_icon : string := String (ascii_of_nat 240) (String (ascii_of_nat 159)
  (String (ascii_of_nat 147) (String (ascii_of_nat 132) EmptyString))).

Definition node_is_dir (n : Node) : bool :=
  match n with NDir => true | NFile _ => false end.

Definition mk_item (name path : string) (n : Node) : Item :=
  mkItem name (if node_is_dir n then folder_icon else file_icon) (node_is_dir n)
         (match n with
          | NFile sz => (fmt_hundredths (hundredths_div sz 1024) ++ " KB")%string
          | NDir => "-"%string
          end) path.

(** [sorted(items, key=lambda x: (not x["is_dir"], x["name"]))]: folders
    first, then by name, stable. *)
Definition item_le (a b : Item) : bool :=
  if Bool.eqb (it_is_dir a) (it_is_dir b) then name_le (it_name a) (it_name b)
  else it_is_dir a.

Fixpoint insert_le {A : Type} (le : A -> A -> bool) (x : A) (l : list A) : list A :=
  match l with
  | [] => [x]
  | y :: l' => if le x y then x :: l else y :: insert_le le x l'
  end.

Fixpoint sort_le {A : Type} (le : A -> A -> bool) (l : list A) : list A :=
  match l with
  | [] => []
  | x :: l' => insert_le le x (sort_le le l')
  end.

Definition last_name (p : list string) : string := last p EmptyString.

Section Browser.

Variable exc_text : PyError -> string.

(** Whether the modification time of the file at a path is one a ZIP
    entry holds: [ZipInfo] refuses a year before 1980, and the header
    has no room for one after 2107. *)
Variable zip_time_ok : list string -> bool.

Inductive Page :=
| Listing (title : string) (current_path : option string) (items : list Item)
| Raised (status_code : nat) (detail : string)
| Redirect (url : string) (status_code : nat).

Definition page_status (r : Page) : nat :=
  match r with Listing _ _ _ => 200 | Raised c _ => c | Redirect _ c => c end.

(** [home]: the entries of the root ([[]] when it is missing); [iterdir]
    on a root that is a file raises [NotADirectoryError] (20), turned
    into a 500. *)
Definition home (t : Tree) : Page :=
  let root := root_res t n8n_dir in
  if exists_at t root then
    if is_dir_at t root then
      Listing "Static Files Browser"%string None
        (sort_le item_le
           (map (fun qn => mk_item (last_name (fst qn)) (last_name (fst qn)) (snd qn))
                (children t root)))
    else Raised 500 (exc_text (EOS 20 n8n_dir))
  else Listing "Static Files Browser"%string None (sort_le item_le []).

(** [browse_folder]: building a row calls
    [item.relative_to(STATICFILES_DIR)] on the resolved, absolute [item]
    against the relative [Path("n8n_ffmpeg")], which raises [ValueError]
    for the first entry; [except Exception] turns it into a 500. *)
Definition browse_folder (t : Tree) (path : string) : Page :=
  let target := target_res t n8n_dir path in
  if negb (access_ok t n8n_dir path) then Raised 403 "Access denied"%string
  else if negb (exists_at t target) || negb (is_dir_at t target) then
    Raised 404 "Folder not found"%string
  else
    match children t target with
    | [] => Listing ("Browsing: " ++ path)%string (Some path) []
    | (q, _) :: _ => Raised 500 (exc_text (ENotRelative (str_abs q) n8n_dir))
    end.

(** [delete_item] *)
Definition delete_item (t : Tree) (path : string) : Tree * Page :=
  let target := target_res t n8n_dir path in
  if negb (access_ok t n8n_dir path) then (t, Raised 403 "Access denied"%string)
  else if negb (exists_at t target) then (t, Raised 404 "File not found"%string)
  else
    let t' := if is_dir_at t target then rmtree target t else unlink target t in
    (t', Redirect (redirect_for path) 303).

(** The loop of [delete_multiple]: the count and the error list are built
    and never used. *)
Fixpoint delete_each (t : Tree) (sel : list string) (deleted : nat) (errors : list string)
    : Tree * nat * list string :=
  match sel with
  | [] => (t, deleted, errors)
  | file_path :: rest =>
      let target := target_res t n8n_dir file_path in
      if negb (access_ok t n8n_dir file_path) then
        delete_each t rest deleted (errors ++ [(file_path ++ ": Access denied")%string])
      else if negb (exists_at t target) then
        delete_each t rest deleted (errors ++ [(file_path ++ ": Not found")%string])
      else
        let t' := if is_dir_at t target then rmtree target t else unlink target t in
        delete_each t' rest (S deleted) errors
  end.

Definition delete_multiple (t : Tree) (selected_files : list string) : Tree * Page :=
  let '(t', _, _) := delete_each t selected_files 0 [] in
  let url := match selected_files with
             | [] => "/"%string
             | p :: _ => redirect_for p
             end in
  (t', Redirect url 303).

(** The members [download_multiple] writes into the ZIP, as (arcname,
    source file); [zip_file.write] raises on an empty arcname and on a
    modification time out of the ZIP range; a directory with a file below
    it raises on [item.relative_to(STATICFILES_DIR)], as in
    [browse_folder]. *)
Fixpoint zip_members (t : Tree) (sel : list string) : PyError + list (string * list string) :=
  match sel with
  | [] => inr []
  | file_path :: rest =>
      let target := target_res t n8n_dir file_path in
      if negb (access_ok t n8n_dir file_path) then zip_members t rest
      else if negb (exists_at t target) then zip_members t rest
      else if is_file_at t target then
        match zip_arcname file_path with
        | None => inl EIndex
        | Some a =>
            if negb (zip_time_ok target) then inl (EZipTime target)
            else
              match zip_members t rest with
              | inl e => inl e
              | inr ms => inr ((a, target) :: ms)
              end
        end
      else if is_dir_at t target then
        match files_under t target with
        | [] => zip_members t rest
        | (q, _) :: _ => inl (ENotRelative (str_abs q) n8n_dir)
        end
      else zip_members t rest
  end.

Inductive Download :=
| ZipStream (filename : string) (members : list (string * list string))
| DownloadError (status_code : nat) (detail : string).

(** [download_multiple]; [stamp] is [datetime.now().strftime("%Y%m%d_%H%M%S")].
    The [HTTPException(400)] for an empty selection is raised inside the
    [try] and caught by [except Exception]: it becomes a 500. *)
Definition download_multiple (t : Tree) (stamp : string) (selected_files : list string)
    : Download :=
  match selected_files with
  | [] => DownloadError 500 (exc_text (EHttp 400 "No files selected"%string))
  | _ :: _ =>
      match zip_members t selected_files with
      | inl e => DownloadError 500 (exc_text e)
      | inr ms => ZipStream ("n8n_files_" ++ stamp ++ ".zip")%string ms
      end
  end.

(** The [yt] endpoints. *)
Record YtFile := mkYtFile { yf_name : string; yf_size : nat; yf_size_kb : nat; yf_size_mb : nat }.

Definition yt_file (name : string) (size : nat) : YtFile :=
  mkYtFile name size (hundredths_div size 1024) (hundredths_div size 1048576).

Inductive YtResponse :=
| YtList (total_files : nat) (files : list YtFile)
| YtListError (status_code : nat) (message : string)   (* with "files": [] *)
| YtUploaded (file : YtFile)                            (* 201 *)
| YtUrl (name url : string) (size size_kb size_mb : nat)
| YtDeleted (message : string)
| YtError (status_code : nat) (message : string).

Definition yt_status (r : YtResponse) : nat :=
  match r with
  | YtList _ _ | YtUrl _ _ _ _ _ | YtDeleted _ => 200
  | YtUploaded _ => 201
  | YtListError c _ | YtError c _ => c
  end.

(** [list_yt_files]: the files below [yt], named by their path relative to
    [yt] with backslashes turned into slashes, sorted by that name; the
    response body cannot be encoded when a name is not UTF-8 (it holds a
    lone surrogate), and [except Exception] answers 500. *)
Definition yt_entry (root : list string) (qn : list string * Node) : YtFile :=
  yt_file (replace_backslash (String.concat "/" (skipn (length root) (fst qn))))
          (match snd qn with NFile sz => sz | NDir => 0 end).

Definition list_yt_files (t : Tree) : YtResponse :=
  let root := root_res t yt_dir in
  if negb (exists_at t root) then YtListError 404 "yt folder not found"%string
  else
    let files := map (yt_entry root) (files_under t root) in
    let sorted_files := sort_by yf_name files in
    if forallb (fun f => valid_utf8 (yf_name f)) sorted_files
    then YtList (length files) sorted_files
    else YtListError 500 (exc_text EEncode).

(** The kernel's walk of a path for [mkdir] and [open]: each component is
    looked up in a directory ([ENOENT] = 2 if it is missing, [ENOTDIR] = 20
    if it is a file); the last one need not exist. *)
Fixpoint os_walk (t : Tree) (acc : list string) (cs : list string) : nat + list string :=
  match cs with
  | [] => inr acc
  | c :: rest =>
      if is_dir_at t acc then os_walk t (resolve_step acc c) rest
      else if exists_at t acc then inl 20 else inl 2
  end.

(** [str(yt_dir / filename)] and the path the kernel is given. *)
Definition yt_join_str (filename : string) : string :=
  if is_abs filename then py_str (py_root filename) (path_parts filename)
  else py_str EmptyString (path_parts yt_dir ++ path_parts filename).

Definition os_path (t : Tree) (s : string) : nat + list string :=
  os_walk t (if is_abs s then [] else t_cwd t) (path_parts s).

(** [yt_dir.mkdir(exist_ok=True)] *)
Definition mkdir_exist_ok (t : Tree) (s : string) : nat + Tree :=
  match os_path t s with
  | inl e => inl e
  | inr p =>
      match node_at t p with
      | Some NDir => inr t
      | Some (NFile _) => inl 17
      | None => if is_dir_at t (removelast p) then inr (put_node p NDir t) else inl 2
      end
  end.

(** [upload_file_to_yt]: the folder is created first, then the filename
    is checked; the file is written at [yt_dir / file.filename] with no
    access check; [open(..., "wb")] on a directory is [EISDIR] (21). *)
Definition upload_file_to_yt (t : Tree) (filename : option string) (content : string)
    : Tree * YtResponse :=
  match mkdir_exist_ok t yt_dir with
  | inl e => (t, YtError 500 (exc_text (EOS e yt_dir)))
  | inr t1 =>
      match filename with
      | None | Some EmptyString => (t1, YtError 400 "No filename provided"%string)
      | Some f =>
          let target_s := yt_join_str f in
          match os_path t1 target_s with
          | inl e => (t1, YtError 500 (exc_text (EOS e target_s)))
          | inr p =>
              if is_dir_at t1 p then (t1, YtError 500 (exc_text (EOS 21 target_s)))
              else
                let t2 := put_node p (NFile (String.length content)) t1 in
                (t2, YtUploaded (yt_file f (size_at t2 p)))
          end
      end
  end.

(** [str(request.base_url).rstrip("/")] *)
Fixpoint rstrip_slash (s : string) : string :=
  match s with
  | EmptyString => EmptyString
  | String c s' =>
      let r := rstrip_slash s' in
      if Ascii.eqb c "/"%char && String.eqb r EmptyString then EmptyString else String c r
  end.

(** [get_file_url] *)
Definition get_file_url (t : Tree) (base_url filename : string) : YtResponse :=
  let target := target_res t yt_dir filename in
  if negb (access_ok t yt_dir filename) then YtError 403 "Access denied"%string
  else if negb (exists_at t target) || negb (is_file_at t target) then
    YtError 404 "File not found"%string
  else
    let size := size_at t target in
    YtUrl filename (rstrip_slash base_url ++ "/yt/" ++ filename)%string size
          (hundredths_div size 1024) (hundredths_div size 1048576).

(** [delete_file_from_yt] *)
Definition delete_file_from_yt (t : Tree) (filename : string) : Tree * YtResponse :=
  let target := target_res t yt_dir filename in
  if negb (access_ok t yt_dir filename) then (t, YtError 403 "Access denied"%string)
  else if negb (exists_at t target) then (t, YtError 404 "File not found"%string)
  else if negb (is_file_at t target) then (t, YtError 400 "Cannot delete directories"%string)
  else (unlink target t, YtDeleted ("File '" ++ filename ++ "' deleted successfully")%string).

End Browser.

(** A path component that is used as a plain name: no [/], and not
    empty, [.] or [..]. *)
Fixpoint has_slash (s : string) : bool :=
  match s with
  | EmptyString => false
  | String c s' => Ascii.eqb c "/"%char || has_slash s'
  end.

Definition plain_name (s : string) : bool :=
  negb (has_slash s) && negb (String.eqb s EmptyString) && negb (String.eqb s "."%string)
  && negb (String.eqb s ".."%string).

Fixpoint has_nul (s : string) : bool :=
  match s with
  | EmptyString => false
  | String c s' => Ascii.eqb c "000"%char || has_nul s'
  end.

(** A path the operating system takes: no NUL byte (Python raises
    [ValueError: embedded null byte] before the system call, also in
    [Path.resolve]), fewer than [PATH_MAX] = 4096 bytes and
    no component longer than [NAME_MAX] = 255 bytes (else [ENAMETOOLONG],
    which [Path.exists] raises). *)
Definition os_path_ok (s : string) : bool :=
  negb (has_nul s) && (String.length s <? 4096)
  && forallb (fun c => String.length c <=? 255) (split_slash s).

(** Sample inputs: a deployment root, a clock, file trees and transcoder
    behaviours ([ffmpeg] leaves a partial output when it fails after having
    opened the output file). *)
Definition sample_root : string := "/srv/app/n8n_ffmpeg"%string.
Definition sample_now : Date := mkDate 2026 10 15.

Definition sample_entries : list FileEntry :=
  [mkEntry (mkPath "cam1" "b_2024-05-01.mp4") true 300 "2024-05-01 09:00:00";
   mkEntry (mkPath "" "a_2024-05-01.mp4") true 200 "2024-05-01 08:00:00";
   mkEntry (mkPath "" "notes_2024-05-01.txt") true 10 "2024-05-01 20:00:00";
   mkEntry (mkPath "" "c_2024-04-30.mov") true 100 "2024-04-30 07:00:00"]%string.

Definition sample_world : World := mkWorld true sample_entries [] [].

(** FastCopy fails after writing part of the output; Reencode succeeds. *)
Definition ffmpeg_fast_fails (m : Mode) (_ : list Path) (_ : Path) (_ : World) : RunOutcome :=
  match m with
  | FastCopy => RunFfmpegError "Non-monotonous DTS in output stream"%string
                  (Some (4096, "2024-05-01 18:00:00"%string))
  | Reencode => RunOk 8192 "2024-05-01 18:05:00"%string
  end.

(** Both runs fail after writing part of the output. *)
Definition ffmpeg_both_fail (m : Mode) (_ : list Path) (_ : Path) (_ : World) : RunOutcome :=
  RunFfmpegError "Invalid data found when processing input"%string
    (Some (4096, "2024-05-01 18:00:00"%string)).

(** Every run succeeds. *)
Definition ffmpeg_ok (m : Mode) (_ : list Path) (_ : Path) (_ : World) : RunOutcome :=
  RunOk 8192 "2024-05-01 18:05:00"%string.

Section SampleTree.
Local Open Scope string_scope.

(** A deployment under [/srv/app]: [n8n_ffmpeg] with a folder [cam1]
    holding a video, an empty folder [cam2] and a note; a sibling folder
    [n8n_ffmpeg_backup]; and the [yt] folder with one video. *)
Definition sample_tree : Tree :=
  mkTree ["srv"; "app"]
    [(["srv"], NDir); (["srv"; "app"], NDir);
     (["srv"; "app"; "n8n_ffmpeg"], NDir);
     (["srv"; "app"; "n8n_ffmpeg"; "cam1"], NDir);
     (["srv"; "app"; "n8n_ffmpeg"; "cam1"; "a.mp4"], NFile 2048);
     (["srv"; "app"; "n8n_ffmpeg"; "cam2"], NDir);
     (["srv"; "app"; "n8n_ffmpeg"; "b.txt"], NFile 10);
     (["srv"; "app"; "n8n_ffmpeg_backup"], NDir);
     (["srv"; "app"; "n8n_ffmpeg_backup"; "old.mp4"], NFile 100);
     (["srv"; "app"; "yt"], NDir);
     (["srv"; "app"; "yt"; "v.mp4"], NFile 4096)].

End SampleTree.

(** Strings of ASCII bytes only. *)
Fixpoint ascii_str (s : string) : bool :=
  match s with
  | EmptyString => true
  | String c r => (N_of_ascii c <? 128)%N && ascii_str r
  end.

(** FULLWIDTH DIGIT [k] (U+FF10 + [k]) in UTF-8, a decimal digit that is
    not ASCII. *)
Definition fullwidth_digit (k : nat) : string :=
  String (ascii_of_nat 239) (String (ascii_of_nat 188) (String (ascii_of_nat (144 + k)) EmptyString)).

(** [2024-05-01_2024-05-01.mp4], the first date in FULLWIDTH DIGITs. *)
Definition fullwidth_date_name : string :=
  (fullwidth_digit 2 ++ fullwidth_digit 0 ++ fullwidth_digit 2 ++ fullwidth_digit 4 ++ "-"
   ++ fullwidth_digit 0 ++ fullwidth_digit 5 ++ "-" ++ fullwidth_digit 0 ++ fullwidth_digit 1
   ++ "_2024-05-01.mp4")%string.

(** [2024-05-02], the year in FULLWIDTH DIGITs. *)
Definition fullwidth_year_date : string :=
  (fullwidth_digit 2 ++ fullwidth_digit 0 ++ fullwidth_digit 2 ++ fullwidth_digit 4
   ++ "-05-02")%string.

(* ================================================================== *)
(** * Properties *)

(* ------------------------------------------------------------------ *)
(** ** Digits and arithmetic *)

Lemma is_digit_digit_char (k : nat) : k < 10 -> is_digit (digit_char k) = true.
Proof. intros Hk. do 10 (destruct k as [|k]; [reflexivity|]). lia. Qed.

Lemma N_digit_char (k : nat) : k < 10 -> N_of_ascii (digit_char k) = N.of_nat (48 + k).
Proof. intros Hk. do 10 (destruct k as [|k]; [reflexivity|]). lia. Qed.

Lemma digit_char_ascii (k : nat) : k < 10 -> (N_of_ascii (digit_char k) <? 128)%N = true.
Proof. intros Hk. do 10 (destruct k as [|k]; [reflexivity|]). lia. Qed.

Lemma mod10_lt (n : nat) : n mod 10 < 10.
Proof. apply Nat.mod_upper_bound. discriminate. Qed.

Create HintDb digits.
#[local] Hint Resolve mod10_lt : digits.

Lemma four_digits (y : nat) :
  y <= 9999 -> (y / 1000 mod 10) * 1000 + (y / 100 mod 10) * 100 + (y / 10 mod 10) * 10 + y mod 10 = y.
Proof.
  intros H. change 9999 with (999 * 10 + 9) in H.
  assert (E1 : y / 10 / 10 = y / 100) by (rewrite Nat.Div0.div_div; reflexivity).
  assert (E2 : y / 100 / 10 = y / 1000) by (rewrite Nat.Div0.div_div; reflexivity).
  assert (E3 : y / 1000 < 10) by (apply Nat.Div0.div_lt_upper_bound; lia).
  pose proof (Nat.div_mod_eq y 10) as D1.
  pose proof (Nat.div_mod_eq (y / 10) 10) as D2.
  pose proof (Nat.div_mod_eq (y / 100) 10) as D3.
  rewrite E1 in D2. rewrite E2 in D3. rewrite (Nat.mod_small (y / 1000) 10 E3).
  lia.
Qed.

Lemma two_digits (n : nat) : n < 100 -> (n / 10 mod 10) * 10 + n mod 10 = n.
Proof.
  intros H.
  assert (E : n / 10 < 10) by (apply Nat.Div0.div_lt_upper_bound; lia).
  rewrite (Nat.mod_small _ _ E). pose proof (Nat.div_mod_eq n 10). lia.
Qed.

Lemma digits4 (a b c e : nat) :
  a < 10 -> b < 10 -> c < 10 -> e < 10 ->
  (a * 1000 + b * 100 + c * 10 + e) / 1000 mod 10 = a /\
  (a * 1000 + b * 100 + c * 10 + e) / 100 mod 10 = b /\
  (a * 1000 + b * 100 + c * 10 + e) / 10 mod 10 = c /\
  (a * 1000 + b * 100 + c * 10 + e) mod 10 = e.
Proof.
  intros Ha Hb Hc He.
  rewrite <- (Nat.div_unique _ 1000 a (b * 100 + c * 10 + e)) by lia.
  rewrite <- (Nat.div_unique _ 100 (a * 10 + b) (c * 10 + e)) by lia.
  rewrite <- (Nat.div_unique _ 10 (a * 100 + b * 10 + c) e) by lia.
  rewrite (Nat.mod_small a 10 Ha).
  rewrite <- (Nat.mod_unique (a * 10 + b) 10 a b) by lia.
  rewrite <- (Nat.mod_unique (a * 100 + b * 10 + c) 10 (a * 10 + b) c) by lia.
  rewrite <- (Nat.mod_unique (a * 1000 + b * 100 + c * 10 + e) 10 (a * 100 + b * 10 + c) e)
    by lia.
  auto.
Qed.

Lemma digits2 (a b : nat) :
  a < 10 -> b < 10 -> (a * 10 + b) / 10 mod 10 = a /\ (a * 10 + b) mod 10 = b.
Proof.
  intros Ha Hb.
  rewrite <- (Nat.div_unique _ 10 a b) by lia.
  rewrite (Nat.mod_small a 10 Ha).
  rewrite <- (Nat.mod_unique (a * 10 + b) 10 a b) by lia.
  auto.
Qed.

Lemma days_in_month_le (y m : nat) : days_in_month y m <= 31.
Proof.
  unfold days_in_month.
  destruct m as [|[|[|[|[|[|[|[|[|[|[|[|[|m]]]]]]]]]]]]]; try destruct (is_leap y); lia.
Qed.

Lemma valid_date_bounds (d : Date) :
  valid_date d = true ->
  1 <= year d /\ year d <= 9999 /\ 1 <= month d /\ month d <= 12 /\ 1 <= day d /\ day d <= 31.
Proof.
  unfold valid_date. intros H.
  repeat match goal with
         | H : (_ && _) = true |- _ => apply andb_prop in H as [? ?]
         | H : (_ <=? _) = true |- _ => apply Nat.leb_le in H
         end.
  pose proof (days_in_month_le (year d) (month d)). repeat split; lia.
Qed.

Lemma date_eqb_eq (a b : Date) : date_eqb a b = true <-> a = b.
Proof.
  destruct a as [y1 m1 d1], b as [y2 m2 d2]. unfold date_eqb; simpl.
  rewrite !andb_true_iff, !Nat.eqb_eq. split.
  - intros [[-> ->] ->]. reflexivity.
  - intros E. injection E as -> -> ->. auto.
Qed.

(* ------------------------------------------------------------------ *)
(** ** [os.fsencode] undoes [os.fsdecode] *)

Lemma div_eq (q r b : N) : (r < b)%N -> ((q * b + r) / b = q)%N.
Proof. intros H. symmetry. apply (N.div_unique _ _ _ r); [exact H|lia]. Qed.

Lemma mod_eq (q r b : N) : (r < b)%N -> ((q * b + r) mod b = r)%N.
Proof. intros H. symmetry. apply (N.mod_unique _ _ q); [exact H|lia]. Qed.

Lemma encode_cp_ascii (n : N) : (n < 128)%N -> encode_cp n = String (ascii_of_N n) EmptyString.
Proof. intros H. unfold encode_cp. rewrite (proj2 (N.ltb_lt _ _) H). reflexivity. Qed.

Lemma encode_cp_escape (n : N) :
  (128 <= n < 256)%N -> encode_cp (56320 + n) = String (ascii_of_N n) EmptyString.
Proof.
  intros H. unfold encode_cp.
  rewrite (proj2 (N.ltb_ge _ 128)) by lia.
  rewrite (proj2 (N.leb_le 56448 _)) by lia. rewrite (proj2 (N.leb_le _ 56575)) by lia.
  cbn [andb]. replace (56320 + n - 56320)%N with n by lia. reflexivity.
Qed.

Lemma encode_cp_2 (n b : N) :
  (194 <= n <= 223)%N -> (128 <= b <= 191)%N ->
  encode_cp ((n - 192) * 64 + (b - 128)) = String (ascii_of_N n) (String (ascii_of_N b) EmptyString).
Proof.
  intros Hn Hb. set (c := ((n - 192) * 64 + (b - 128))%N).
  assert (Hc : (128 <= c < 2048)%N) by (unfold c; lia).
  assert (E1 : (c / 64 = n - 192)%N) by (apply div_eq; lia).
  assert (E2 : (c mod 64 = b - 128)%N) by (apply mod_eq; lia).
  unfold encode_cp.
  rewrite (proj2 (N.ltb_ge c 128)) by lia.
  rewrite (proj2 (N.leb_gt 56448 c)) by lia. cbn [andb].
  rewrite (proj2 (N.ltb_lt c 2048)) by lia.
  rewrite E1, E2.
  replace (192 + (n - 192))%N with n by lia. replace (128 + (b - 128))%N with b by lia.
  reflexivity.
Qed.

Lemma encode_cp_3 (n b1 b2 : N) :
  (224 <= n <= 239)%N -> (128 <= b1 <= 191)%N -> (128 <= b2 <= 191)%N ->
  (n = 224 -> 160 <= b1)%N -> (n = 237 -> b1 <= 159)%N ->
  encode_cp ((n - 224) * 4096 + (b1 - 128) * 64 + (b2 - 128)) =
  String (ascii_of_N n) (String (ascii_of_N b1) (String (ascii_of_N b2) EmptyString)).
Proof.
  intros Hn Hb1 Hb2 H224 H237.
  set (c := ((n - 224) * 4096 + (b1 - 128) * 64 + (b2 - 128))%N).
  assert (Hc : (2048 <= c < 65536 /\ (c < 56448 \/ 56575 < c))%N) by (unfold c; lia).
  assert (E1 : (c / 4096 = n - 224)%N).
  { replace c with ((n - 224) * 4096 + ((b1 - 128) * 64 + (b2 - 128)))%N by (unfold c; lia).
    apply div_eq. lia. }
  assert (E2 : ((c / 64) mod 64 = b1 - 128)%N).
  { replace c with (((n - 224) * 64 + (b1 - 128)) * 64 + (b2 - 128))%N by (unfold c; lia).
    rewrite div_eq by lia. apply mod_eq. lia. }
  assert (E3 : (c mod 64 = b2 - 128)%N).
  { replace c with (((n - 224) * 64 + (b1 - 128)) * 64 + (b2 - 128))%N by (unfold c; lia).
    apply mod_eq. lia. }
  unfold encode_cp.
  rewrite (proj2 (N.ltb_ge c 128)) by lia.
  replace ((56448 <=? c)%N && (c <=? 56575)%N) with false.
  2: { symmetry. apply andb_false_iff.
       destruct Hc as [_ [Hl|Hg]]; [left; apply N.leb_gt; exact Hl|right; apply N.leb_gt; exact Hg]. }
  rewrite (proj2 (N.ltb_ge c 2048)) by lia. rewrite (proj2 (N.ltb_lt c 65536)) by lia.
  rewrite E1, E2, E3.
  replace (224 + (n - 224))%N with n by lia. replace (128 + (b1 - 128))%N with b1 by lia.
  replace (128 + (b2 - 128))%N with b2 by lia.
  reflexivity.
Qed.

Lemma encode_cp_4 (n b1 b2 b3 : N) :
  (240 <= n <= 244)%N -> (128 <= b1 <= 191)%N -> (128 <= b2 <= 191)%N -> (128 <= b3 <= 191)%N ->
  (n = 240 -> 144 <= b1)%N -> (n = 244 -> b1 <= 143)%N ->
  encode_cp ((n - 240) * 262144 + (b1 - 128) * 4096 + (b2 - 128) * 64 + (b3 - 128)) =
  String (ascii_of_N n) (String (ascii_of_N b1) (String (ascii_of_N b2)
    (String (ascii_of_N b3) EmptyString))).
Proof.
  intros Hn Hb1 Hb2 Hb3 H240 H244.
  set (c := ((n - 240) * 262144 + (b1 - 128) * 4096 + (b2 - 128) * 64 + (b3 - 128))%N).
  assert (Hc : (65536 <= c)%N) by (unfold c; lia).
  assert (E1 : (c / 262144 = n - 240)%N).
  { replace c with ((n - 240) * 262144 + ((b1 - 128) * 4096 + (b2 - 128) * 64 + (b3 - 128)))%N
      by (unfold c; lia).
    apply div_eq. lia. }
  assert (E2 : ((c / 4096) mod 64 = b1 - 128)%N).
  { replace c with (((n - 240) * 64 + (b1 - 128)) * 4096 + ((b2 - 128) * 64 + (b3 - 128)))%N
      by (unfold c; lia).
    rewrite div_eq by lia. apply mod_eq. lia. }
  assert (E3 : ((c / 64) mod 64 = b2 - 128)%N).
  { replace c with ((((n - 240) * 64 + (b1 - 128)) * 64 + (b2 - 128)) * 64 + (b3 - 128))%N
      by (unfold c; lia).
    rewrite div_eq by lia. apply mod_eq. lia. }
  assert (E4 : (c mod 64 = b3 - 128)%N).
  { replace c with ((((n - 240) * 64 + (b1 - 128)) * 64 + (b2 - 128)) * 64 + (b3 - 128))%N
      by (unfold c; lia).
    apply mod_eq. lia. }
  unfold encode_cp.
  rewrite (proj2 (N.ltb_ge c 128)) by lia.
  rewrite (proj2 (N.leb_gt c 56575)) by lia. rewrite andb_false_r.
  rewrite (proj2 (N.ltb_ge c 2048)) by lia. rewrite (proj2 (N.ltb_ge c 65536)) by lia.
  rewrite E1, E2, E3, E4.
  replace (240 + (n - 240))%N with n by lia. replace (128 + (b1 - 128))%N with b1 by lia.
  replace (128 + (b2 - 128))%N with b2 by lia. replace (128 + (b3 - 128))%N with b3 by lia.
  reflexivity.
Qed.

Lemma byte_in_range (lo hi : N) (c : ascii) :
  byte_in lo hi c = true -> (lo <= N_of_ascii c <= hi)%N.
Proof. unfold byte_in. intros H. apply andb_prop in H as [H1 H2]. apply N.leb_le in H1, H2. lia. Qed.

Lemma second_ok_range (n : N) (c : ascii) :
  second_ok n c = true ->
  (128 <= N_of_ascii c <= 191)%N /\ (n = 224 -> 160 <= N_of_ascii c)%N /\
  (n = 237 -> N_of_ascii c <= 159)%N /\ (n = 240 -> 144 <= N_of_ascii c)%N /\
  (n = 244 -> N_of_ascii c <= 143)%N.
Proof.
  unfold second_ok.
  destruct (N.eqb_spec n 224) as [->|H1]; [intros H; apply byte_in_range in H; lia|].
  destruct (N.eqb_spec n 237) as [->|H2]; [intros H; apply byte_in_range in H; lia|].
  destruct (N.eqb_spec n 240) as [->|H3]; [intros H; apply byte_in_range in H; lia|].
  destruct (N.eqb_spec n 244) as [->|H4]; [intros H; apply byte_in_range in H; lia|].
  intros H; apply byte_in_range in H; lia.
Qed.

Lemma decode_se_cons (c : ascii) (r : string) :
  decode_se (String c r) =
  if (N_of_ascii c <? 128)%N then N_of_ascii c :: decode_se r
  else if (194 <=? N_of_ascii c)%N && (N_of_ascii c <=? 223)%N then
    match r with
    | String c1 r1 =>
        if second_ok (N_of_ascii c) c1 then ((N_of_ascii c - 192) * 64 + cont c1)%N :: decode_se r1
        else (56320 + N_of_ascii c)%N :: decode_se r
    | EmptyString => [(56320 + N_of_ascii c)%N]
    end
  else if (224 <=? N_of_ascii c)%N && (N_of_ascii c <=? 239)%N then
    match r with
    | String c1 (String c2 r2) =>
        if second_ok (N_of_ascii c) c1 && byte_in 128 191 c2
        then ((N_of_ascii c - 224) * 4096 + cont c1 * 64 + cont c2)%N :: decode_se r2
        else (56320 + N_of_ascii c)%N :: decode_se r
    | _ => (56320 + N_of_ascii c)%N :: decode_se r
    end
  else if (240 <=? N_of_ascii c)%N && (N_of_ascii c <=? 244)%N then
    match r with
    | String c1 (String c2 (String c3 r3)) =>
        if second_ok (N_of_ascii c) c1 && byte_in 128 191 c2 && byte_in 128 191 c3
        then ((N_of_ascii c - 240) * 262144 + cont c1 * 4096 + cont c2 * 64 + cont c3)%N
             :: decode_se r3
        else (56320 + N_of_ascii c)%N :: decode_se r
    | _ => (56320 + N_of_ascii c)%N :: decode_se r
    end
  else (56320 + N_of_ascii c)%N :: decode_se r.
Proof. reflexivity. Qed.

Lemma decode_se_ascii_cons (c : ascii) (r : string) :
  (N_of_ascii c < 128)%N -> decode_se (String c r) = N_of_ascii c :: decode_se r.
Proof. intros H. rewrite decode_se_cons, (proj2 (N.ltb_lt _ _) H). reflexivity. Qed.

Lemma encode_se_escape (c : ascii) (l : list N) :
  (128 <= N_of_ascii c)%N -> encode_se ((56320 + N_of_ascii c)%N :: l) = String c (encode_se l).
Proof.
  intros H. cbn [encode_se]. rewrite encode_cp_escape by (pose proof (N_ascii_bounded c); lia).
  rewrite ascii_N_embedding. reflexivity.
Qed.

Ltac escape_step IH :=
  rewrite encode_se_escape by lia; f_equal; apply IH; cbn [String.length] in *; lia.

Lemma encode_decode_aux (k : nat) (s : string) :
  String.length s <= k -> encode_se (decode_se s) = s.
Proof.
  revert s. induction k as [|k IH]; intros [|c r] Hl; cbn [String.length] in Hl;
    try reflexivity; try lia.
  pose proof (N_ascii_bounded c) as Hc.
  rewrite decode_se_cons.
  destruct (N.ltb_spec (N_of_ascii c) 128) as [H0|H0].
  { cbn [encode_se]. rewrite encode_cp_ascii, ascii_N_embedding by exact H0.
    cbn [append]. f_equal. apply IH. lia. }
  destruct ((194 <=? N_of_ascii c)%N && (N_of_ascii c <=? 223)%N) eqn:E2.
  { apply andb_prop in E2 as [E2a E2b]. apply N.leb_le in E2a, E2b.
    destruct r as [|c1 r1].
    - cbn [encode_se]. rewrite encode_cp_escape, ascii_N_embedding by lia. reflexivity.
    - destruct (second_ok (N_of_ascii c) c1) eqn:S1; [|escape_step IH].
      apply second_ok_range in S1 as (S1 & _).
      cbn [encode_se]. unfold cont. rewrite encode_cp_2 by lia.
      rewrite !ascii_N_embedding. cbn [append]. do 2 f_equal. apply IH.
      cbn [String.length] in Hl. lia. }
  destruct ((224 <=? N_of_ascii c)%N && (N_of_ascii c <=? 239)%N) eqn:E3.
  { apply andb_prop in E3 as [E3a E3b]. apply N.leb_le in E3a, E3b.
    destruct r as [|c1 [|c2 r2]]; [escape_step IH|escape_step IH|].
    destruct (second_ok (N_of_ascii c) c1 && byte_in 128 191 c2) eqn:S; [|escape_step IH].
    apply andb_prop in S as [S1 S2].
    apply second_ok_range in S1 as (S1 & T224 & T237 & _). apply byte_in_range in S2.
    cbn [encode_se]. unfold cont. rewrite encode_cp_3 by lia.
    rewrite !ascii_N_embedding. cbn [append]. do 3 f_equal. apply IH.
    cbn [String.length] in Hl. lia. }
  destruct ((240 <=? N_of_ascii c)%N && (N_of_ascii c <=? 244)%N) eqn:E4.
  { apply andb_prop in E4 as [E4a E4b]. apply N.leb_le in E4a, E4b.
    destruct r as [|c1 [|c2 [|c3 r3]]]; [escape_step IH|escape_step IH|escape_step IH|].
    destruct (second_ok (N_of_ascii c) c1 && byte_in 128 191 c2 && byte_in 128 191 c3) eqn:S;
      [|escape_step IH].
    apply andb_prop in S as [S S3]. apply andb_prop in S as [S1 S2].
    apply second_ok_range in S1 as (S1 & _ & _ & T240 & T244).
    apply byte_in_range in S2, S3.
    cbn [encode_se]. unfold cont. rewrite encode_cp_4 by lia.
    rewrite !ascii_N_embedding. cbn [append]. do 4 f_equal. apply IH.
    cbn [String.length] in Hl. lia. }
  escape_step IH.
Qed.

Lemma encode_decode_se (s : string) : encode_se (decode_se s) = s.
Proof. apply (encode_decode_aux (String.length s)). lia. Qed.

Lemma decode_se_inj (a b : string) : decode_se a = decode_se b -> a = b.
Proof. intros H. rewrite <- (encode_decode_se a), H. apply encode_decode_se. Qed.

Lemma decode_ascii_app (s t : string) :
  ascii_str s = true -> decode_se (s ++ t) = decode_se s ++ decode_se t.
Proof.
  induction s as [|c s IH]; intros H; [reflexivity|].
  cbn [ascii_str] in H. apply andb_prop in H as [H1 H2]. apply N.ltb_lt in H1.
  cbn [append]. rewrite !decode_se_ascii_cons by exact H1. cbn [app]. f_equal. apply IH, H2.
Qed.

Lemma decode_ascii (s : string) :
  ascii_str s = true -> decode_se s = map N_of_ascii (list_ascii_of_string s).
Proof.
  induction s as [|c s IH]; intros H; [reflexivity|].
  cbn [ascii_str] in H. apply andb_prop in H as [H1 H2]. apply N.ltb_lt in H1.
  rewrite decode_se_ascii_cons by exact H1. cbn [list_ascii_of_string map]. f_equal. apply IH, H2.
Qed.

Lemma strftime_ascii (d : Date) : ascii_str (strftime_date d) = true.
Proof.
  unfold strftime_date, pad4, pad2. cbn [append ascii_str].
  rewrite !digit_char_ascii by apply mod10_lt. reflexivity.
Qed.

Lemma decode_strftime (d : Date) :
  decode_se (strftime_date d) = map N_of_ascii (list_ascii_of_string (strftime_date d)).
Proof. apply decode_ascii, strftime_ascii. Qed.

Lemma strftime_cps_ascii (d : Date) :
  forallb (fun c => (c <? 128)%N) (decode_se (strftime_date d)) = true.
Proof.
  rewrite decode_strftime. unfold strftime_date, pad4, pad2.
  cbn [append list_ascii_of_string map forallb].
  rewrite !digit_char_ascii by apply mod10_lt. reflexivity.
Qed.

(* ------------------------------------------------------------------ *)
(** ** Code-point sequences: equality and order *)

Lemma cps_eqb_eq (a b : list N) : cps_eqb a b = true <-> a = b.
Proof.
  revert b. induction a as [|x a IH]; intros [|y b]; cbn [cps_eqb];
    try (split; [discriminate|congruence]); [split; reflexivity|].
  rewrite andb_true_iff, N.eqb_eq, IH. split; [intros [-> ->]; reflexivity|].
  intros E. injection E as -> ->. auto.
Qed.

Lemma cps_eqb_refl (a : list N) : cps_eqb a a = true.
Proof. apply cps_eqb_eq. reflexivity. Qed.

Lemma cps_leb_cons (x y : N) (a b : list N) :
  cps_leb (x :: a) (y :: b) = true <-> (x < y)%N \/ (x = y /\ cps_leb a b = true).
Proof.
  cbn [cps_leb]. destruct (N.ltb_spec x y) as [H|H].
  - split; [intros _; left; exact H|reflexivity].
  - destruct (N.eqb_spec x y) as [->|H'].
    + split; [intros E; right; split; [reflexivity|exact E]|].
      intros [H1|[_ E]]; [lia|exact E].
    + split; [discriminate|intros [H1|[H1 _]]; lia].
Qed.

Lemma cps_leb_refl (a : list N) : cps_leb a a = true.
Proof.
  induction a as [|x a IH]; [reflexivity|]. apply cps_leb_cons. right. auto.
Qed.

Lemma cps_leb_trans (a b c : list N) :
  cps_leb a b = true -> cps_leb b c = true -> cps_leb a c = true.
Proof.
  revert b c. induction a as [|x a IH]; intros [|y b] [|z c] H1 H2;
    try reflexivity; try discriminate.
  apply cps_leb_cons in H1, H2. apply cps_leb_cons.
  destruct H1 as [H1|[-> H1]], H2 as [H2|[-> H2]].
  - left. lia.
  - left. exact H1.
  - left. exact H2.
  - right. split; [reflexivity|]. apply (IH b c H1 H2).
Qed.

Lemma cps_leb_total (a b : list N) : cps_leb a b = true \/ cps_leb b a = true.
Proof.
  revert b. induction a as [|x a IH]; intros [|y b]; auto.
  rewrite !cps_leb_cons. destruct (N.lt_trichotomy x y) as [H|[->|H]]; auto.
  destruct (IH b); auto.
Qed.

Lemma cps_leb_antisym (a b : list N) : cps_leb a b = true -> cps_leb b a = true -> a = b.
Proof.
  revert b. induction a as [|x a IH]; intros [|y b] H1 H2; try reflexivity; try discriminate.
  apply cps_leb_cons in H1, H2.
  destruct H1 as [H1|[-> H1]]; destruct H2 as [H2|[E H2]]; try lia.
  f_equal. apply IH; assumption.
Qed.

Lemma name_le_trans (a b c : string) :
  name_le a b = true -> name_le b c = true -> name_le a c = true.
Proof. unfold name_le. apply cps_leb_trans. Qed.

Lemma name_le_refl (a : string) : name_le a a = true.
Proof. apply cps_leb_refl. Qed.

Lemma name_le_total (a b : string) : name_le a b = true \/ name_le b a = true.
Proof. apply cps_leb_total. Qed.

Lemma name_le_antisym (a b : string) : name_le a b = true -> name_le b a = true -> a = b.
Proof. unfold name_le. intros H1 H2. apply decode_se_inj, cps_leb_antisym; assumption. Qed.

(* ------------------------------------------------------------------ *)
(** ** The Unicode 14.0 table *)

Lemma nd_lookup_cons (z : N) (zs : list N) (c : N) :
  nd_lookup (z :: zs) c =
  if (z <=? c)%N && (c <? z + 10)%N then Some (N.to_nat (c - z)) else nd_lookup zs c.
Proof. reflexivity. Qed.

Lemma nd_lookup_above (zs : list N) (c : N) : Forall (fun z => (c < z)%N) zs -> nd_lookup zs c = None.
Proof.
  induction 1 as [|z zs Hz _ IH]; [reflexivity|].
  rewrite nd_lookup_cons, (proj2 (N.leb_gt z c) Hz). exact IH.
Qed.

Lemma nd_lookup_lt (zs : list N) (c : N) (k : nat) : nd_lookup zs c = Some k -> k < 10.
Proof.
  induction zs as [|z zs IH]; [discriminate|]. rewrite nd_lookup_cons.
  destruct ((z <=? c)%N && (c <? z + 10)%N) eqn:E; [|exact IH].
  apply andb_prop in E as [E1 E2]. apply N.leb_le in E1. apply N.ltb_lt in E2.
  intros H. injection H as <-. lia.
Qed.

Lemma ucd14_decimal_ok : decimal_ok ucd14_decimal.
Proof.
  split.
  - intros c Hc. unfold ucd14_decimal, nd_zeros_14. rewrite nd_lookup_cons.
    rewrite nd_lookup_above by (repeat (apply Forall_cons; [lia|]); apply Forall_nil).
    destruct (N.leb_spec 48 c) as [H1|H1]; destruct (N.ltb_spec c (48 + 10)) as [H2|H2];
      destruct (N.leb_spec c 57) as [H3|H3]; cbn [andb]; try (exfalso; lia); try reflexivity.
    f_equal. lia.
  - intros c k. apply nd_lookup_lt.
Qed.

(* ------------------------------------------------------------------ *)
(** ** The stable sort *)

Section SortBy.

Context {A : Type} (key : A -> string).

Lemma insert_by_perm (x : A) (l : list A) : Permutation (insert_by key x l) (x :: l).
Proof.
  induction l as [|y l IH]; simpl; [reflexivity|].
  destruct (name_le (key x) (key y)); [reflexivity|].
  rewrite IH. apply perm_swap.
Qed.

Lemma sort_by_perm (l : list A) : Permutation (sort_by key l) l.
Proof.
  induction l as [|x l IH]; simpl; [reflexivity|].
  rewrite insert_by_perm, IH. reflexivity.
Qed.

Lemma insert_by_hdrel (y x : A) (l : list A) :
  HdRel (key_le key) y l -> key_le key y x -> HdRel (key_le key) y (insert_by key x l).
Proof.
  intros Hl Hyx. destruct l as [|z l]; simpl.
  - constructor. exact Hyx.
  - destruct (name_le (key x) (key z)); constructor; [exact Hyx|].
    inversion Hl; assumption.
Qed.

Lemma insert_by_sorted (x : A) (l : list A) :
  Sorted (key_le key) l -> Sorted (key_le key) (insert_by key x l).
Proof.
  induction l as [|y l IH]; simpl; intros Hs.
  - repeat constructor.
  - destruct (name_le (key x) (key y)) eqn:Exy.
    + constructor; [exact Hs|]. constructor. exact Exy.
    + apply Sorted_inv in Hs as [Hl Hhd]. constructor; [apply IH, Hl|].
      apply insert_by_hdrel; [exact Hhd|].
      unfold key_le. destruct (name_le_total (key x) (key y)); congruence.
Qed.

Lemma sort_by_sorted (l : list A) : Sorted (key_le key) (sort_by key l).
Proof.
  induction l as [|x l IH]; simpl; [constructor|]. apply insert_by_sorted, IH.
Qed.

(** Stability: among the elements of one key, the order of the input. *)
Lemma insert_by_filter_key (n : string) (x : A) (l : list A) :
  filter (fun z => String.eqb (key z) n) (insert_by key x l) =
  if String.eqb (key x) n then x :: filter (fun z => String.eqb (key z) n) l
  else filter (fun z => String.eqb (key z) n) l.
Proof.
  induction l as [|y l IH]; simpl; [reflexivity|].
  destruct (name_le (key x) (key y)) eqn:Exy; simpl; [reflexivity|].
  rewrite IH.
  destruct (String.eqb (key x) n) eqn:Ex, (String.eqb (key y) n) eqn:Ey; try reflexivity.
  apply String.eqb_eq in Ex, Ey. rewrite Ex, <- Ey, name_le_refl in Exy. discriminate.
Qed.

Lemma sort_by_filter_key (n : string) (l : list A) :
  filter (fun z => String.eqb (key z) n) (sort_by key l) =
  filter (fun z => String.eqb (key z) n) l.
Proof.
  induction l as [|x l IH]; simpl; [reflexivity|].
  rewrite insert_by_filter_key, IH. reflexivity.
Qed.

End SortBy.

Lemma filter_perm {A : Type} (f : A -> bool) (l1 l2 : list A) :
  Permutation l1 l2 -> Permutation (filter f l1) (filter f l2).
Proof.
  induction 1; simpl.
  - constructor.
  - destruct (f x); [constructor|]; assumption.
  - destruct (f x), (f y); try constructor; reflexivity.
  - etransitivity; eassumption.
Qed.

Lemma sorted_map {A B : Type} (f : A -> B) (R : B -> B -> Prop) (l : list A) :
  Sorted (fun a b => R (f a) (f b)) l -> Sorted R (map f l).
Proof.
  induction 1 as [|a l Hs IH Hhd]; simpl; constructor; [exact IH|].
  destruct Hhd; simpl; constructor; assumption.
Qed.

Lemma strongly_sorted_perm_eq {A : Type} (R : A -> A -> Prop) (l1 l2 : list A) :
  StronglySorted R l1 -> StronglySorted R l2 -> Permutation l1 l2 ->
  (forall a b, In a l1 -> In b l1 -> R a b -> R b a -> a = b) -> l1 = l2.
Proof.
  revert l2. induction l1 as [|a l1 IH]; intros l2 S1 S2 P Anti.
  - symmetry. apply Permutation_nil, P.
  - destruct l2 as [|b l2]; [apply Permutation_sym, Permutation_nil in P; discriminate|].
    apply StronglySorted_inv in S1 as [S1 F1]. apply StronglySorted_inv in S2 as [S2 F2].
    assert (Eab : a = b).
    { assert (Ha : In a (b :: l2)) by (apply (Permutation_in _ P); left; reflexivity).
      assert (Hb : In b (a :: l1)) by (apply (Permutation_in _ (Permutation_sym P)); left; reflexivity).
      destruct Ha as [Ha|Ha]; [auto|]. destruct Hb as [Hb|Hb]; [auto|].
      apply Anti; [left; reflexivity | right; exact Hb | |].
      - rewrite Forall_forall in F1. apply F1, Hb.
      - rewrite Forall_forall in F2. apply F2, Ha. }
    subst b. f_equal. apply IH; [exact S1 | exact S2 | eapply Permutation_cons_inv; exact P |].
    intros x y Hx Hy. apply Anti; right; assumption.
Qed.

Lemma nodup_map_inj {A B : Type} (f : A -> B) (l : list A) (x y : A) :
  NoDup (map f l) -> In x l -> In y l -> f x = f y -> x = y.
Proof.
  induction l as [|z l IH]; simpl; [tauto|].
  intros Hnd Hx Hy Hf. inversion Hnd as [|? ? Hnin Hnd']; subst.
  destruct Hx as [<-|Hx], Hy as [<-|Hy]; auto.
  - exfalso. apply Hnin. rewrite Hf. apply in_map, Hy.
  - exfalso. apply Hnin. rewrite <- Hf. apply in_map, Hx.
Qed.

Lemma suffix_output_name (D : Date) : suffix (strftime_date D ++ ".mp4") = ".mp4"%string.
Proof. unfold strftime_date, pad4, pad2. cbn -[digit_char]. reflexivity. Qed.

Local Open Scope string_scope.

Section Digits.

(** A decimal table that agrees with every Unicode database on ASCII. *)
Variable decimal : N -> option nat.
Hypothesis Hdec : decimal_ok decimal.

(* ------------------------------------------------------------------ *)
(** ** The date token *)

Lemma decimal_digit_char (k : nat) : k < 10 -> decimal (N_of_ascii (digit_char k)) = Some k.
Proof.
  intros Hk. rewrite N_digit_char by exact Hk. rewrite (proj1 Hdec) by lia.
  rewrite (proj2 (N.leb_le 48 _)) by lia. rewrite (proj2 (N.leb_le _ 57)) by lia.
  cbn [andb]. f_equal. lia.
Qed.

Lemma is_dec_digit_char (k : nat) : k < 10 -> is_dec decimal (N_of_ascii (digit_char k)) = true.
Proof. intros Hk. unfold is_dec. rewrite decimal_digit_char by exact Hk. reflexivity. Qed.

Lemma dec_val_digit_char (k : nat) : k < 10 -> dec_val decimal (N_of_ascii (digit_char k)) = k.
Proof. intros Hk. unfold dec_val. rewrite decimal_digit_char by exact Hk. reflexivity. Qed.

(** An ASCII character with a decimal value is one of [0]..[9]. *)
Lemma dec_ascii_digit (c : N) :
  is_dec decimal c = true -> (c <? 128)%N = true ->
  exists k, k < 10 /\ c = N_of_ascii (digit_char k).
Proof.
  intros H Hc. apply N.ltb_lt in Hc. unfold is_dec in H. rewrite (proj1 Hdec c Hc) in H.
  destruct ((48 <=? c)%N && (c <=? 57)%N) eqn:E; [|discriminate].
  apply andb_prop in E as [E1 E2]. apply N.leb_le in E1, E2.
  exists (N.to_nat c - 48). split; [lia|]. rewrite N_digit_char by lia. lia.
Qed.

Lemma match_at_token (s m : list N) : match_at decimal s = Some m -> date_token decimal m.
Proof.
  intros H.
  destruct s as [|y1 [|y2 [|y3 [|y4 [|h1 [|m1 [|m2 [|h2 [|d1 [|d2 r]]]]]]]]]];
    try discriminate H.
  cbv beta iota delta [match_at] in H.
  destruct (is_dec decimal y1) eqn:E1, (is_dec decimal y2) eqn:E2, (is_dec decimal y3) eqn:E3,
           (is_dec decimal y4) eqn:E4, (h1 =? 45)%N eqn:E5, (is_dec decimal m1) eqn:E6,
           (is_dec decimal m2) eqn:E7, (h2 =? 45)%N eqn:E8, (is_dec decimal d1) eqn:E9,
           (is_dec decimal d2) eqn:E10; try discriminate H.
  injection H as <-.
  apply N.eqb_eq in E5, E8.
  exists y1, y2, y3, y4, h1, m1, m2, h2, d1, d2. repeat split; assumption.
Qed.

Lemma search_date_eq (c : N) (r : list N) :
  search_date decimal (c :: r) =
  match match_at decimal (c :: r) with Some m => Some m | None => search_date decimal r end.
Proof. reflexivity. Qed.

Lemma search_date_token (s m : list N) : search_date decimal s = Some m -> date_token decimal m.
Proof.
  induction s as [|c r IH]; intros H.
  - discriminate H.
  - rewrite search_date_eq in H. destruct (match_at decimal (c :: r)) eqn:E.
    + injection H as <-. apply (match_at_token _ _ E).
    + apply IH, H.
Qed.

Lemma match_at_token_app (m rest : list N) :
  date_token decimal m -> match_at decimal (m ++ rest) = Some m.
Proof.
  intros (y1 & y2 & y3 & y4 & h1 & m1 & m2 & h2 & d1 & d2 & -> & Y1 & Y2 & Y3 & Y4 & -> &
          M1 & M2 & -> & D1 & D2).
  cbn [app]. cbv beta iota delta [match_at].
  rewrite Y1, Y2, Y3, Y4, M1, M2, D1, D2. reflexivity.
Qed.

Lemma search_date_token_app (m rest : list N) :
  date_token decimal m -> search_date decimal (m ++ rest) = Some m.
Proof.
  intros Hm. pose proof (match_at_token_app m rest Hm) as E.
  destruct Hm as (y1 & y2 & y3 & y4 & h1 & m1 & m2 & h2 & d1 & d2 & -> & _).
  cbn [app]. cbn [app] in E. rewrite search_date_eq, E. reflexivity.
Qed.

Lemma strftime_token (d : Date) : date_token decimal (decode_se (strftime_date d)).
Proof.
  rewrite decode_strftime. unfold strftime_date, pad4, pad2.
  cbn [append list_ascii_of_string map].
  eexists _, _, _, _, _, _, _, _, _, _. split; [reflexivity|].
  repeat split; try reflexivity; apply is_dec_digit_char; auto with digits.
Qed.

Lemma parse_strftime (d : Date) :
  year d <= 9999 -> month d < 100 -> day d < 100 ->
  spec_parse_match decimal (decode_se (strftime_date d)) = d.
Proof.
  destruct d as [y m dd]. cbn [year month day]. intros Hy Hm Hd.
  rewrite decode_strftime. unfold strftime_date, pad4, pad2.
  cbn [append list_ascii_of_string map spec_parse_match year month day].
  rewrite !dec_val_digit_char by apply mod10_lt.
  f_equal; [apply four_digits | apply two_digits | apply two_digits]; assumption.
Qed.

(** A token written in ASCII digits is [strftime] of the date it parses to. *)
Lemma strftime_parse (m : list N) :
  date_token decimal m -> forallb (fun c => (c <? 128)%N) m = true ->
  decode_se (strftime_date (spec_parse_match decimal m)) = m.
Proof.
  intros (y1 & y2 & y3 & y4 & h1 & m1 & m2 & h2 & d1 & d2 & -> & Y1 & Y2 & Y3 & Y4 & -> &
          M1 & M2 & -> & D1 & D2) Ha.
  cbn [forallb] in Ha. rewrite !andb_true_iff in Ha.
  destruct Ha as (A1 & A2 & A3 & A4 & _ & A6 & A7 & _ & A9 & A10 & _).
  destruct (dec_ascii_digit _ Y1 A1) as (k1 & L1 & ->).
  destruct (dec_ascii_digit _ Y2 A2) as (k2 & L2 & ->).
  destruct (dec_ascii_digit _ Y3 A3) as (k3 & L3 & ->).
  destruct (dec_ascii_digit _ Y4 A4) as (k4 & L4 & ->).
  destruct (dec_ascii_digit _ M1 A6) as (k6 & L6 & ->).
  destruct (dec_ascii_digit _ M2 A7) as (k7 & L7 & ->).
  destruct (dec_ascii_digit _ D1 A9) as (k9 & L9 & ->).
  destruct (dec_ascii_digit _ D2 A10) as (k10 & L10 & ->).
  cbn [spec_parse_match]. rewrite !dec_val_digit_char by assumption.
  rewrite decode_strftime. unfold strftime_date, pad4, pad2.
  cbn [append list_ascii_of_string map year month day].
  destruct (digits4 _ _ _ _ L1 L2 L3 L4) as (-> & -> & -> & ->).
  destruct (digits2 _ _ L6 L7) as (-> & ->).
  destruct (digits2 _ _ L9 L10) as (-> & ->).
  reflexivity.
Qed.

(* ------------------------------------------------------------------ *)
(** ** C3: the date embedded in a filename *)

(** C3 (corrected).  The code keeps a file for the target date [D] exactly
    when the first substring matching [\d{4}-\d{2}-\d{2}] is [D] written
    as [YYYY-MM-DD]: that is, when the spec's [extract] (first match,
    parsed, [none] when not a calendar date) returns [D] and that first
    match is written in ASCII digits. *)
Theorem date_matches_iff_spec_extract (name : string) (D : Date) :
  valid_date D = true ->
  (date_matches decimal name (strftime_date D) = true <->
   spec_extract decimal name = Some D /\ first_match_ascii decimal name = true).
Proof.
  intros HD. unfold date_matches, spec_extract, first_match_ascii.
  destruct (search_date decimal (decode_se name)) as [m|] eqn:Es;
    [|split; [discriminate|intros [H _]; discriminate H]].
  pose proof (search_date_token _ _ Es) as Tm.
  destruct (valid_date_bounds D HD) as (Hy1 & Hy2 & Hm1 & Hm2 & Hd1 & Hd2).
  split.
  - intros Heq. apply cps_eqb_eq in Heq. subst m.
    rewrite parse_strftime by lia. rewrite HD. split; [reflexivity|]. apply strftime_cps_ascii.
  - intros [E Ha]. destruct (valid_date (spec_parse_match decimal m)) eqn:Ev; [|discriminate E].
    injection E as E. apply cps_eqb_eq.
    rewrite <- (strftime_parse m Tm Ha), E. reflexivity.
Qed.

(* ------------------------------------------------------------------ *)
(** ** C2: the order handed to the strategies *)

Lemma discover_perm (es1 es2 : list FileEntry) (today_str : string) :
  Permutation es1 es2 ->
  Permutation (discover decimal es1 today_str) (discover decimal es2 today_str).
Proof. intros P. unfold discover. apply Permutation_map, filter_perm, P. Qed.

(** C2 (corrected).  The list handed to the strategies is the candidates
    sorted by filename in code-point order, stably (candidates of one
    filename keep their enumeration order); the sequence of filenames is the
    same for every enumeration order of the same files, and so is the list
    itself when no two candidates share a filename. *)
Theorem ordered_candidates_by_name (es1 es2 : list FileEntry) (today_str : string) :
  Permutation es1 es2 ->
  Sorted (key_le p_name) (ordered_candidates decimal es1 today_str) /\
  Permutation (ordered_candidates decimal es1 today_str) (discover decimal es1 today_str) /\
  (forall n, filter (fun p => String.eqb (p_name p) n) (ordered_candidates decimal es1 today_str) =
             filter (fun p => String.eqb (p_name p) n) (discover decimal es1 today_str)) /\
  map p_name (ordered_candidates decimal es1 today_str) =
  map p_name (ordered_candidates decimal es2 today_str) /\
  (NoDup (map p_name (discover decimal es1 today_str)) ->
   ordered_candidates decimal es1 today_str = ordered_candidates decimal es2 today_str).
Proof.
  intros P. unfold ordered_candidates.
  pose proof (discover_perm _ _ today_str P) as PD.
  pose proof (sort_by_perm p_name (discover decimal es1 today_str)) as P1.
  pose proof (sort_by_perm p_name (discover decimal es2 today_str)) as P2.
  assert (P12 : Permutation (sort_by p_name (discover decimal es1 today_str))
                            (sort_by p_name (discover decimal es2 today_str))).
  { rewrite P1, P2. exact PD. }
  split; [apply sort_by_sorted|]. split; [exact P1|].
  split; [intros n; apply sort_by_filter_key|]. split.
  - apply (strongly_sorted_perm_eq (fun a b => name_le a b = true)).
    + apply Sorted_StronglySorted; [intros a b c; apply name_le_trans|].
      apply sorted_map, sort_by_sorted.
    + apply Sorted_StronglySorted; [intros a b c; apply name_le_trans|].
      apply sorted_map, sort_by_sorted.
    + apply Permutation_map, P12.
    + intros a b _ _. apply name_le_antisym.
  - intros ND. apply (strongly_sorted_perm_eq (key_le p_name)).
    + apply Sorted_StronglySorted; [intros a b c; apply name_le_trans|].
      apply sort_by_sorted.
    + apply Sorted_StronglySorted; [intros a b c; apply name_le_trans|].
      apply sort_by_sorted.
    + exact P12.
    + intros a b Ha Hb Hab Hba.
      apply (nodup_map_inj p_name (sort_by p_name (discover decimal es1 today_str))); auto.
      * apply (Permutation_NoDup (Permutation_map p_name (Permutation_sym P1)) ND).
      * apply name_le_antisym; assumption.
Qed.

(* ------------------------------------------------------------------ *)
(** ** C10: a previous output is a candidate of the next run *)

Lemma in_ordered_candidates (es : list FileEntry) (today_str : string) (e : FileEntry) :
  In e es -> is_candidate decimal today_str e = true ->
  In (fe_path e) (ordered_candidates decimal es today_str).
Proof.
  intros He Hc. unfold ordered_candidates.
  apply (Permutation_in _ (Permutation_sym (sort_by_perm p_name _))).
  unfold discover. apply in_map, filter_In. auto.
Qed.

(** C10.  The output [{D}.mp4] has an allowed extension and its first date
    token is [D]; so when it is present under the root, the next run for [D]
    takes it among its inputs. *)
Theorem previous_output_is_candidate (D : Date) (es : list FileEntry) (size : nat)
    (modified : Modified) :
  In (mkEntry (output_path_for (strftime_date D)) true size modified) es ->
  is_video_ext (map lower_cp (decode_se (suffix (p_name (output_path_for (strftime_date D))))))
    = true /\
  search_date decimal (decode_se (p_name (output_path_for (strftime_date D)))) =
    Some (decode_se (strftime_date D)) /\
  In (output_path_for (strftime_date D)) (ordered_candidates decimal es (strftime_date D)).
Proof.
  intros He.
  assert (Hs : search_date decimal (decode_se (p_name (output_path_for (strftime_date D)))) =
               Some (decode_se (strftime_date D))).
  { unfold output_path_for. cbn [p_name]. rewrite decode_ascii_app by apply strftime_ascii.
    apply search_date_token_app, strftime_token. }
  assert (Hx : is_video_ext (map lower_cp (decode_se (suffix (p_name
                 (output_path_for (strftime_date D)))))) = true).
  { unfold output_path_for. cbn [p_name]. rewrite suffix_output_name. reflexivity. }
  split; [exact Hx|]. split; [exact Hs|].
  apply (in_ordered_candidates es _ _ He).
  unfold is_candidate, date_matches. cbn [fe_is_file fe_path].
  rewrite Hx, Hs, cps_eqb_refl. reflexivity.
Qed.

End Digits.

(* ------------------------------------------------------------------ *)
(** ** Date matching and ordering on sample names *)

Lemma date_matches_iff_spec_extract_witness :
  decimal_ok ucd14_decimal /\ valid_date (mkDate 2024 5 1) = true /\
  (date_matches ucd14_decimal "news_2024-05-01_13-00-22.mp4" (strftime_date (mkDate 2024 5 1))
     = true <->
   spec_extract ucd14_decimal "news_2024-05-01_13-00-22.mp4" = Some (mkDate 2024 5 1) /\
   first_match_ascii ucd14_decimal "news_2024-05-01_13-00-22.mp4" = true).
Proof.
  refine (conj ucd14_decimal_ok (conj _ _)); [reflexivity|].
  apply (date_matches_iff_spec_extract ucd14_decimal ucd14_decimal_ok). reflexivity.
Defined.

(** C3, counterexamples.  A first match that is no calendar date hides a
    later valid date, so "a filename containing a valid [YYYY-MM-DD]
    substring extracts that date" fails, and the code does not keep the
    file for that date.  And [\d] matches any decimal digit: the first match
    of [fullwidth_date_name] is 2024-05-01 in FULLWIDTH DIGITs, which
    [int()] reads as 2024, 5 and 1, so the spec's [extract] gives
    2024-05-01, while the code compares the matched text with
    ["2024-05-01"] and does not keep the file. *)
Lemma first_match_hides_valid_date :
  ~ (forall (name : string) (D : Date), valid_date D = true ->
       contains (strftime_date D) name = true -> spec_extract ucd14_decimal name = Some D) /\
  date_matches ucd14_decimal "2024-13-40_2024-05-01.mp4" "2024-05-01" = false /\
  spec_extract ucd14_decimal fullwidth_date_name = Some (mkDate 2024 5 1) /\
  date_matches ucd14_decimal fullwidth_date_name (strftime_date (mkDate 2024 5 1)) = false.
Proof.
  split; [|split; [|split]]; [| vm_compute; reflexivity .. ].
  intros H. specialize (H "2024-13-40_2024-05-01.mp4" (mkDate 2024 5 1) eq_refl eq_refl).
  vm_compute in H. discriminate H.
Qed.

Lemma ordered_candidates_by_name_witness :
  Permutation [mkEntry (mkPath "" "b_2024-05-01.mp4") true 7 "2024-05-01 09:00:00";
               mkEntry (mkPath "" "a_2024-05-01.mp4") true 5 "2024-05-01 08:00:00"]
              [mkEntry (mkPath "" "a_2024-05-01.mp4") true 5 "2024-05-01 08:00:00";
               mkEntry (mkPath "" "b_2024-05-01.mp4") true 7 "2024-05-01 09:00:00"] /\
  ordered_candidates ucd14_decimal
    [mkEntry (mkPath "" "b_2024-05-01.mp4") true 7 "2024-05-01 09:00:00";
     mkEntry (mkPath "" "a_2024-05-01.mp4") true 5 "2024-05-01 08:00:00"] "2024-05-01" =
  [mkPath "" "a_2024-05-01.mp4"; mkPath "" "b_2024-05-01.mp4"] /\
  (Sorted (key_le p_name) (ordered_candidates ucd14_decimal
    [mkEntry (mkPath "" "b_2024-05-01.mp4") true 7 "2024-05-01 09:00:00";
     mkEntry (mkPath "" "a_2024-05-01.mp4") true 5 "2024-05-01 08:00:00"] "2024-05-01") /\ True).
Proof.
  assert (P : Permutation
    [mkEntry (mkPath "" "b_2024-05-01.mp4") true 7 "2024-05-01 09:00:00";
     mkEntry (mkPath "" "a_2024-05-01.mp4") true 5 "2024-05-01 08:00:00"]
    [mkEntry (mkPath "" "a_2024-05-01.mp4") true 5 "2024-05-01 08:00:00";
     mkEntry (mkPath "" "b_2024-05-01.mp4") true 7 "2024-05-01 09:00:00"]) by apply perm_swap.
  split; [exact P|]. split; [vm_compute; reflexivity|]. split; [|exact I].
  apply (proj1 (ordered_candidates_by_name ucd14_decimal _ _ "2024-05-01" P)).
Defined.

(** C2, counterexample: the discovery is recursive, so two candidates in
    different subdirectories can share a filename; the stable sort then
    keeps their enumeration order, and two enumeration orders of the same
    files hand different lists to the strategies. *)
Lemma same_name_candidates_follow_enumeration :
  Permutation [mkEntry (mkPath "cam1" "clip_2024-05-01.mp4") true 10 "2024-05-01 10:00:00";
               mkEntry (mkPath "cam2" "clip_2024-05-01.mp4") true 20 "2024-05-01 11:00:00"]
              [mkEntry (mkPath "cam2" "clip_2024-05-01.mp4") true 20 "2024-05-01 11:00:00";
               mkEntry (mkPath "cam1" "clip_2024-05-01.mp4") true 10 "2024-05-01 10:00:00"] /\
  ordered_candidates ucd14_decimal
    [mkEntry (mkPath "cam1" "clip_2024-05-01.mp4") true 10 "2024-05-01 10:00:00";
     mkEntry (mkPath "cam2" "clip_2024-05-01.mp4") true 20 "2024-05-01 11:00:00"] "2024-05-01"
  <> ordered_candidates ucd14_decimal
    [mkEntry (mkPath "cam2" "clip_2024-05-01.mp4") true 20 "2024-05-01 11:00:00";
     mkEntry (mkPath "cam1" "clip_2024-05-01.mp4") true 10 "2024-05-01 10:00:00"] "2024-05-01".
Proof.
  split; [apply perm_swap|]. vm_compute. discriminate.
Qed.

Lemma previous_output_is_candidate_witness :
  decimal_ok ucd14_decimal /\
  In (mkEntry (output_path_for (strftime_date (mkDate 2024 5 1))) true 4096 "2024-05-01 18:00:05")
     [mkEntry (mkPath "" "a_2024-05-01.mp4") true 5 "2024-05-01 08:00:00";
      mkEntry (output_path_for (strftime_date (mkDate 2024 5 1))) true 4096 "2024-05-01 18:00:05"]
  /\ In (output_path_for (strftime_date (mkDate 2024 5 1)))
        (ordered_candidates ucd14_decimal
           [mkEntry (mkPath "" "a_2024-05-01.mp4") true 5 "2024-05-01 08:00:00";
            mkEntry (output_path_for (strftime_date (mkDate 2024 5 1))) true 4096
                    "2024-05-01 18:00:05"]
           (strftime_date (mkDate 2024 5 1))).
Proof.
  assert (H : In (mkEntry (output_path_for (strftime_date (mkDate 2024 5 1))) true 4096
                          "2024-05-01 18:00:05")
     [mkEntry (mkPath "" "a_2024-05-01.mp4") true 5 "2024-05-01 08:00:00";
      mkEntry (output_path_for (strftime_date (mkDate 2024 5 1))) true 4096 "2024-05-01 18:00:05"])
    by (right; left; reflexivity).
  refine (conj ucd14_decimal_ok (conj H _)).
  apply (previous_output_is_candidate ucd14_decimal ucd14_decimal_ok _ _ _ _ H).
Defined.


(* ------------------------------------------------------------------ *)
(** ** One strategy invocation *)

Lemma path_eqb_refl (p : Path) : path_eqb p p = true.
Proof. unfold path_eqb. rewrite !String.eqb_refl. reflexivity. Qed.

Lemma lookup_size_put_file (p : Path) (s : nat) (md : string) (es : list FileEntry) :
  lookup_size p (put_file (mkEntry p true s md) es) = Some s.
Proof.
  induction es as [|e es IH]; simpl.
  - rewrite path_eqb_refl. reflexivity.
  - destruct (path_eqb (fe_path e) p) eqn:E; simpl.
    + rewrite path_eqb_refl. reflexivity.
    + rewrite E. exact IH.
Qed.

Lemma fresh_tmp_not_in (t : list nat) : ~ In (fresh_tmp t) t.
Proof.
  unfold fresh_tmp. intros H.
  assert (Hle : Forall (fun k => k <= list_max t) t) by (apply list_max_le; lia).
  rewrite Forall_forall in Hle. specialize (Hle _ H). lia.
Qed.

Lemma filter_all_true {A : Type} (f : A -> bool) (l : list A) :
  (forall x, In x l -> f x = true) -> filter f l = l.
Proof.
  induction l as [|x l IH]; simpl; intros H; [reflexivity|].
  rewrite (H x (or_introl eq_refl)), IH; [reflexivity|]. intros y Hy. apply H. right. exact Hy.
Qed.

Lemma invocations_app (a b : list Event) :
  invocations (a ++ b)%list = (invocations a ++ invocations b)%list.
Proof. unfold invocations. apply flat_map_app. Qed.

Section Strategy.

Variable root_abs : string.
Variable ffmpeg : Mode -> list Path -> Path -> World -> RunOutcome.

(** What a strategy does to the world: the root is untouched, the log grows
    by this one invocation, and the files under the root change only by the
    transcoder's effect at the output path. *)
Lemma merge_strategy_effects (m : Mode) (L : list Path) (out : Path) (w w' : World)
    (r : MergeResult + PyExc) :
  merge_strategy root_abs ffmpeg m L out w = (w', r) ->
  w_root_exists w' = w_root_exists w /\
  (exists evs, w_log w' = (w_log w ++ evs)%list /\ invocations evs = [(m, L, out)]) /\
  (exists oc, w_entries w' = apply_outcome out oc (w_entries w)).
Proof.
  unfold merge_strategy. destruct (forallb (line_encodable root_abs) L) eqn:E;
    intros H; injection H as <- <-; cbn [w_log w_entries w_root_exists w_tmp set_entries log_event set_tmp remove_tmp].
  - split; [reflexivity|]. split.
    + eexists. split; [rewrite <- app_assoc; reflexivity|]. reflexivity.
    + eexists. reflexivity.
  - split; [reflexivity|]. split.
    + eexists. split; [reflexivity|]. reflexivity.
    + exists (RunOtherExc EmptyString). reflexivity.
Qed.

(** A success dictionary reports the file the transcoder run just wrote at
    the output path, which is what the output path holds afterwards. *)
Lemma merge_strategy_success (m : Mode) (L : list Path) (out : Path) (w w' : World)
    (msg of : string) (sz mb : nat) :
  merge_strategy root_abs ffmpeg m L out w = (w', inl (MRSuccess msg of sz mb)) ->
  of = p_name out /\ lookup_size out (w_entries w') = Some sz /\
  msg = success_message m (length L) /\
  exists w2 md, ffmpeg m L out w2 = RunOk sz md.
Proof.
  unfold merge_strategy. destruct (forallb (line_encodable root_abs) L) eqn:E;
    intros H; [|discriminate H].
  destruct (ffmpeg _ _ _ _) as [size md|stderr partial|emsg] eqn:Eoc;
    injection H as <- Hr; cbn [w_log w_entries w_root_exists w_tmp set_entries log_event set_tmp remove_tmp after_run apply_outcome] in Hr |- *.
  - rewrite lookup_size_put_file in Hr |- *. injection Hr as <- <- <- _.
    split; [reflexivity|]. split; [reflexivity|]. split; [reflexivity|].
    eexists _, md. exact Eoc.
  - unfold on_ffmpeg_error in Hr.
    destruct (String.eqb stderr EmptyString), (valid_utf8 stderr); discriminate Hr.
  - discriminate Hr.
Qed.

(** X19: When every manifest line can be written, the manifest is a fresh file
    read by the transcoder run and removed before the strategy returns: the
    temporary directory is as before, whatever the transcoder did. *)
Lemma merge_strategy_removes_manifest (m : Mode) (L : list Path) (out : Path) (w w' : World)
    (r : MergeResult + PyExc) :
  forallb (line_encodable root_abs) L = true ->
  merge_strategy root_abs ffmpeg m L out w = (w', r) ->
  ~ In (fresh_tmp (w_tmp w)) (w_tmp w) /\
  In (Transcoded m (fresh_tmp (w_tmp w)) L out) (w_log w') /\
  w_tmp w' = w_tmp w.
Proof.
  intros E. unfold merge_strategy. rewrite E. intros H. injection H as <- _. cbn [w_log w_entries w_root_exists w_tmp set_entries log_event set_tmp remove_tmp].
  pose proof (fresh_tmp_not_in (w_tmp w)) as Hf.
  split; [exact Hf|]. split.
  - apply in_or_app. right. left. reflexivity.
  - cbn [filter]. rewrite Nat.eqb_refl. cbn [negb]. apply filter_all_true.
    intros x Hx. apply negb_true_iff, Nat.eqb_neq. intros ->. contradiction.
Qed.

End Strategy.

(* ------------------------------------------------------------------ *)
(** ** The request handler [merge_today_videos] *)

Lemma skipn_length_app {A : Type} (a b : list A) : skipn (length a) (a ++ b) = b.
Proof. induction a as [|x a IH]; simpl; [reflexivity|exact IH]. Qed.

Lemma ordered_candidates_nil_iff (decimal : N -> option nat) (es : list FileEntry) (today_str : string) :
  ordered_candidates decimal es today_str = [] <-> discover decimal es today_str = [].
Proof.
  unfold ordered_candidates.
  pose proof (Permutation_length (sort_by_perm p_name (discover decimal es today_str))) as Hl.
  split; intros H.
  - rewrite H in Hl. destruct (discover decimal es today_str); [reflexivity|discriminate Hl].
  - rewrite H. reflexivity.
Qed.

Lemma resolve_date_none_iff (decimal : N -> option nat) (now : Date) (date_now : option string) :
  resolve_date decimal now date_now = None <->
  exists s, date_now = Some s /\ s <> EmptyString /\ strptime_ymd decimal s = None.
Proof.
  unfold resolve_date. destruct date_now as [s|].
  - destruct (String.eqb s EmptyString) eqn:E.
    + apply String.eqb_eq in E. split; [discriminate|].
      intros (s' & Hs & Hne & _). injection Hs as <-. contradiction.
    + apply String.eqb_neq in E. split.
      * intros H. exists s. auto.
      * intros (s' & Hs & _ & H). injection Hs as <-. exact H.
  - split; [discriminate|]. intros (s & Hs & _). discriminate Hs.
Qed.

Section Handler.

Variable decimal : N -> option nat.
Variable root_abs : string.
Variable ffmpeg : Mode -> list Path -> Path -> World -> RunOutcome.
Variable now : Date.

Lemma merge_today_videos_pipeline (date_now : option string) (w : World) (d : Date) :
  resolve_date decimal now date_now = Some d -> w_root_exists w = true ->
  discover decimal (w_entries w) (strftime_date d) <> [] ->
  merge_today_videos decimal root_abs ffmpeg now date_now w =
  (let (w1, r1) := merge_videos_fast root_abs ffmpeg
                     (ordered_candidates decimal (w_entries w) (strftime_date d))
                     (output_path_for (strftime_date d)) w in
   match r1 with
   | inl (MRError _) =>
       let (w2, r2) := merge_videos_sync root_abs ffmpeg
                         (ordered_candidates decimal (w_entries w) (strftime_date d))
                         (output_path_for (strftime_date d)) w1 in
       (w2, respond (strftime_date d) (ordered_candidates decimal (w_entries w) (strftime_date d)) r2)
   | _ => (w1, respond (strftime_date d) (ordered_candidates decimal (w_entries w) (strftime_date d)) r1)
   end).
Proof.
  intros Hd Hr Hne. unfold merge_today_videos. rewrite Hd, Hr. cbn [negb].
  destruct (discover _ _ _) eqn:E; [contradiction|reflexivity].
Qed.

(** The status of every response, by the path the handler takes. *)
Lemma merge_today_videos_status (date_now : option string) (w : World) :
  merge_status (snd (merge_today_videos decimal root_abs ffmpeg now date_now w)) =
  match resolve_date decimal now date_now with
  | None => 400
  | Some d =>
      if negb (w_root_exists w) then 404
      else match discover decimal (w_entries w) (strftime_date d) with
           | [] => 404
           | _ :: _ =>
               if strategies_succeed root_abs ffmpeg
                    (ordered_candidates decimal (w_entries w) (strftime_date d))
                    (output_path_for (strftime_date d)) w
               then 200 else 500
           end
  end.
Proof.
  unfold merge_today_videos, strategies_succeed.
  destruct (resolve_date decimal now date_now) as [d|]; [|reflexivity].
  destruct (negb (w_root_exists w)); [reflexivity|].
  destruct (discover _ _ _); [reflexivity|].
  destruct (merge_videos_fast _ _ _ _ _) as [w1 [[msg of sz mb|msg]|e]]; try reflexivity.
  destruct (merge_videos_sync _ _ _ _ _) as [w2 [[msg2 of2 sz2 mb2|msg2]|e2]]; reflexivity.
Qed.

(** The files under the root change only by the effects of the transcoder
    runs at the output path (at most two of them). *)
Lemma merge_today_videos_entries (date_now : option string) (w w' : World) (d : Date)
    (resp : MergeResponse) :
  resolve_date decimal now date_now = Some d ->
  merge_today_videos decimal root_abs ffmpeg now date_now w = (w', resp) ->
  exists oc1 oc2,
    w_entries w' = apply_outcome (output_path_for (strftime_date d)) oc2
                     (apply_outcome (output_path_for (strftime_date d)) oc1 (w_entries w)).
Proof.
  intros Hd H. unfold merge_today_videos in H. rewrite Hd in H.
  destruct (negb (w_root_exists w)).
  { injection H as <- _. exists (RunOtherExc EmptyString), (RunOtherExc EmptyString).
    reflexivity. }
  destruct (discover _ _ _).
  { injection H as <- _. exists (RunOtherExc EmptyString), (RunOtherExc EmptyString).
    reflexivity. }
  destruct (merge_videos_fast _ _ _ _ _) as [w1 r1] eqn:Ef.
  destruct (merge_strategy_effects _ _ _ _ _ _ _ _ Ef) as (_ & _ & oc1 & E1).
  destruct r1 as [[msg of sz mb|msg]|e].
  - injection H as <- _. exists oc1, (RunOtherExc EmptyString). exact E1.
  - destruct (merge_videos_sync _ _ _ _ _) as [w2 r2] eqn:Es. injection H as <- _.
    destruct (merge_strategy_effects _ _ _ _ _ _ _ _ Es) as (_ & _ & oc2 & E2).
    exists oc1, oc2. rewrite E2, E1. reflexivity.
  - injection H as <- _. exists oc1, (RunOtherExc EmptyString). exact E1.
Qed.

(** C1.  For a non-empty ordered candidate list, FastCopy runs first; the
    ReencodeFallback strategy runs, on the same list and output path, exactly
    when FastCopy returns an error dictionary, and the response is then built
    from ReencodeFallback's result (its message on success or failure);
    otherwise ReencodeFallback is never invoked.  (A strategy that raises
    instead of returning, e.g. on undecodable ffmpeg stderr, returns no
    failure result: the response is then a 500 without fallback.) *)
Theorem fast_copy_then_reencode (date_now : option string) (w w' : World) (d : Date)
    (resp : MergeResponse) :
  resolve_date decimal now date_now = Some d -> w_root_exists w = true ->
  ordered_candidates decimal (w_entries w) (strftime_date d) <> [] ->
  merge_today_videos decimal root_abs ffmpeg now date_now w = (w', resp) ->
  let L := ordered_candidates decimal (w_entries w) (strftime_date d) in
  let out := output_path_for (strftime_date d) in
  exists w1 r1,
    merge_videos_fast root_abs ffmpeg L out w = (w1, r1) /\
    (((exists msg, r1 = inl (MRError msg)) /\
      exists r2, merge_videos_sync root_abs ffmpeg L out w1 = (w', r2) /\
        invocations (skipn (length (w_log w)) (w_log w')) =
          [(FastCopy, L, out); (Reencode, L, out)] /\
        resp = respond (strftime_date d) L r2)
     \/
     ((forall msg, r1 <> inl (MRError msg)) /\ w' = w1 /\
      invocations (skipn (length (w_log w)) (w_log w')) = [(FastCopy, L, out)] /\
      resp = respond (strftime_date d) L r1)).
Proof.
  intros Hd Hr Hne Hrun. cbv zeta.
  assert (Hne' : discover decimal (w_entries w) (strftime_date d) <> []).
  { intros E. apply Hne, ordered_candidates_nil_iff, E. }
  rewrite (merge_today_videos_pipeline _ _ _ Hd Hr Hne') in Hrun.
  destruct (merge_videos_fast _ _ _ _ _) as [w1 r1] eqn:Ef.
  destruct (merge_strategy_effects _ _ _ _ _ _ _ _ Ef) as (_ & (evs1 & L1 & I1) & _).
  exists w1, r1. split; [reflexivity|].
  destruct r1 as [[msg of sz mb|msg]|e].
  - injection Hrun as <- <-. right. split; [intros m; discriminate|].
    split; [reflexivity|]. split; [|reflexivity].
    rewrite L1, skipn_length_app. exact I1.
  - destruct (merge_videos_sync _ _ _ _ _) as [w2 r2] eqn:Es.
    destruct (merge_strategy_effects _ _ _ _ _ _ _ _ Es) as (_ & (evs2 & L2 & I2) & _).
    injection Hrun as <- <-. left. split; [exists msg; reflexivity|].
    exists r2. split; [reflexivity|]. split; [|reflexivity].
    rewrite L2, L1, <- app_assoc, skipn_length_app, invocations_app, I1, I2. reflexivity.
  - injection Hrun as <- <-. right. split; [intros m; discriminate|].
    split; [reflexivity|]. split; [|reflexivity].
    rewrite L1, skipn_length_app. exact I1.
Qed.

(** C5.  With the root present and no entry a candidate for the date, the
    response is the 404 "No video files found" and the world is unchanged:
    no strategy is invoked and no transcoder runs. *)
Theorem no_candidates_no_transcoder (date_now : option string) (w : World) (d : Date) :
  resolve_date decimal now date_now = Some d -> w_root_exists w = true ->
  (forall e, In e (w_entries w) -> is_candidate decimal (strftime_date d) e = false) ->
  merge_today_videos decimal root_abs ffmpeg now date_now w =
  (w, MergeErr 404 ("No video files found for " ++ strftime_date d)).
Proof.
  intros Hd Hr Hnone. unfold merge_today_videos. rewrite Hd, Hr. cbn [negb].
  assert (E : discover decimal (w_entries w) (strftime_date d) = []).
  { unfold discover. induction (w_entries w) as [|e es IH]; [reflexivity|].
    cbn [filter]. rewrite (Hnone e (or_introl eq_refl)).
    apply IH. intros e' He'. apply Hnone. right. exact He'. }
  rewrite E. reflexivity.
Qed.

(** C6 (corrected).  A success response comes from exactly one strategy
    run (FastCopy's when it succeeded, otherwise ReencodeFallback's after a
    FastCopy error) and reports the file that run left at the output path;
    the code itself changes the files under the root only through the
    transcoder runs at the output path, so whatever a failed run left there
    stays. *)
Theorem success_from_one_strategy (date_now : option string) (w w' : World) (d : Date)
    (resp : MergeResponse) :
  resolve_date decimal now date_now = Some d ->
  merge_today_videos decimal root_abs ffmpeg now date_now w = (w', resp) ->
  let L := ordered_candidates decimal (w_entries w) (strftime_date d) in
  let out := output_path_for (strftime_date d) in
  (exists oc1 oc2, w_entries w' = apply_outcome out oc2 (apply_outcome out oc1 (w_entries w))) /\
  (forall msg today ins n of sz mb url,
     resp = MergeOk msg today ins n of sz mb url ->
     lookup_size out (w_entries w') = Some sz /\
     ((merge_videos_fast root_abs ffmpeg L out w = (w', inl (MRSuccess msg of sz mb))) \/
      (exists w1 e1, merge_videos_fast root_abs ffmpeg L out w = (w1, inl (MRError e1)) /\
                     merge_videos_sync root_abs ffmpeg L out w1 = (w', inl (MRSuccess msg of sz mb))))).
Proof.
  intros Hd Hrun. cbv zeta.
  split; [apply (merge_today_videos_entries _ _ _ _ _ Hd Hrun)|].
  intros msg today ins n of sz mb url Hok. subst resp.
  unfold merge_today_videos in Hrun. rewrite Hd in Hrun.
  destruct (negb (w_root_exists w)); [discriminate Hrun|].
  destruct (discover _ _ _); [discriminate Hrun|].
  destruct (merge_videos_fast _ _ _ _ _) as [w1 r1] eqn:Ef.
  destruct r1 as [[msg1 of1 sz1 mb1|msg1]|e]; [| |discriminate Hrun].
  - injection Hrun; intros; subst.
    destruct (merge_strategy_success _ _ _ _ _ _ _ _ _ _ _ Ef) as (_ & Hl & _).
    split; [exact Hl|]. left. reflexivity.
  - destruct (merge_videos_sync _ _ _ _ _) as [w2 r2] eqn:Es.
    destruct r2 as [[msg2 of2 sz2 mb2|msg2]|e2]; [|discriminate Hrun|discriminate Hrun].
    injection Hrun; intros; subst.
    destruct (merge_strategy_success _ _ _ _ _ _ _ _ _ _ _ Es) as (_ & Hl & _).
    split; [exact Hl|]. right. exists w1, msg1. split; [reflexivity|exact Es].
Qed.

(** C7.  A success response names the output [{D}.mp4] directly under the
    root; the output path then holds a file of the reported size, and that
    size is the one the transcoder run of this request produced (an older
    file of the same name is overwritten). *)
Theorem output_named_by_date (date_now : option string) (w w' : World) (d : Date)
    (msg today : string) (ins : list string) (n : nat) (of : string) (sz mb : nat)
    (url : string) :
  resolve_date decimal now date_now = Some d ->
  merge_today_videos decimal root_abs ffmpeg now date_now w = (w', MergeOk msg today ins n of sz mb url) ->
  of = strftime_date d ++ ".mp4" /\ output_path_for (strftime_date d) = mkPath EmptyString of /\
  url = "/static/" ++ of /\
  lookup_size (output_path_for (strftime_date d)) (w_entries w') = Some sz /\
  exists m w2 md, ffmpeg m (ordered_candidates decimal (w_entries w) (strftime_date d))
                    (output_path_for (strftime_date d)) w2 = RunOk sz md.
Proof.
  intros Hd Hrun. unfold merge_today_videos in Hrun. rewrite Hd in Hrun.
  destruct (negb (w_root_exists w)); [discriminate Hrun|].
  destruct (discover _ _ _); [discriminate Hrun|].
  destruct (merge_videos_fast _ _ _ _ _) as [w1 r1] eqn:Ef.
  destruct r1 as [[msg1 of1 sz1 mb1|msg1]|e]; [| |discriminate Hrun].
  - injection Hrun; intros; subst.
    destruct (merge_strategy_success _ _ _ _ _ _ _ _ _ _ _ Ef) as (-> & Hl & _ & w2 & md & Ho).
    split; [reflexivity|]. split; [reflexivity|]. split; [reflexivity|].
    split; [exact Hl|]. exists FastCopy, w2, md. exact Ho.
  - destruct (merge_videos_sync _ _ _ _ _) as [w2 r2] eqn:Es.
    destruct r2 as [[msg2 of2 sz2 mb2|msg2]|e2]; [|discriminate Hrun|discriminate Hrun].
    injection Hrun; intros; subst.
    destruct (merge_strategy_success _ _ _ _ _ _ _ _ _ _ _ Es) as (-> & Hl & _ & w3 & md & Ho).
    split; [reflexivity|]. split; [reflexivity|]. split; [reflexivity|].
    split; [exact Hl|]. exists Reencode, w3, md. exact Ho.
Qed.

(** C8 (corrected).  The status is 400 exactly when [date_now] is a
    non-empty string that [strptime("%Y-%m-%d")] rejects (it accepts more
    than YYYY-MM-DD: single-digit month and day, non-ASCII decimal digits
    in the year); 404 when the root
    is missing or nothing matches; 200 when a strategy returns success; 500
    otherwise (both strategies return errors, or one raises).  Every path
    returns a response. *)
Theorem merge_today_status (date_now : option string) (w : World) :
  let st := merge_status (snd (merge_today_videos decimal root_abs ffmpeg now date_now w)) in
  (st = 400 <-> exists s, date_now = Some s /\ s <> EmptyString /\ strptime_ymd decimal s = None) /\
  (st = 404 <-> exists d, resolve_date decimal now date_now = Some d /\
                  (w_root_exists w = false \/ discover decimal (w_entries w) (strftime_date d) = [])) /\
  (st = 200 <-> exists d, resolve_date decimal now date_now = Some d /\ w_root_exists w = true /\
                  discover decimal (w_entries w) (strftime_date d) <> [] /\
                  strategies_succeed root_abs ffmpeg
                    (ordered_candidates decimal (w_entries w) (strftime_date d))
                    (output_path_for (strftime_date d)) w = true) /\
  (st = 500 <-> exists d, resolve_date decimal now date_now = Some d /\ w_root_exists w = true /\
                  discover decimal (w_entries w) (strftime_date d) <> [] /\
                  strategies_succeed root_abs ffmpeg
                    (ordered_candidates decimal (w_entries w) (strftime_date d))
                    (output_path_for (strftime_date d)) w = false).
Proof.
  cbv zeta. rewrite merge_today_videos_status, <- (resolve_date_none_iff decimal now date_now).
  destruct (resolve_date decimal now date_now) as [d|] eqn:Er;
    [destruct (w_root_exists w) eqn:Ewr; cbn [negb];
     [destruct (discover decimal (w_entries w) (strftime_date d)) as [|p ps] eqn:Ed;
      [|destruct (strategies_succeed _ _ _ _ _) eqn:Es]|]|];
    repeat split; intros H;
    repeat match goal with
    | H : exists _, _ |- _ => destruct H
    | H : _ /\ _ |- _ => destruct H
    | H : _ \/ _ |- _ => destruct H
    | H : Some _ = Some _ |- _ => injection H as H; subst
    end;
    try reflexivity; try discriminate; try congruence;
    exists d; repeat split; auto; congruence.
Qed.





End Handler.

(* ------------------------------------------------------------------ *)
(** ** The handler on sample inputs *)

Lemma fast_copy_then_reencode_witness :
  match merge_today_videos ucd14_decimal sample_root ffmpeg_fast_fails sample_now (Some "2024-05-01")
          sample_world with
  | (w', resp) =>
    let L := ordered_candidates ucd14_decimal (w_entries sample_world) (strftime_date (mkDate 2024 5 1)) in
    let out := output_path_for (strftime_date (mkDate 2024 5 1)) in
    exists w1 r1,
      merge_videos_fast sample_root ffmpeg_fast_fails L out sample_world = (w1, r1) /\
      (((exists msg, r1 = inl (MRError msg)) /\
        exists r2, merge_videos_sync sample_root ffmpeg_fast_fails L out w1 = (w', r2) /\
          invocations (skipn (length (w_log sample_world)) (w_log w')) =
            [(FastCopy, L, out); (Reencode, L, out)] /\
          resp = respond (strftime_date (mkDate 2024 5 1)) L r2)
       \/
       ((forall msg, r1 <> inl (MRError msg)) /\ w' = w1 /\
        invocations (skipn (length (w_log sample_world)) (w_log w')) = [(FastCopy, L, out)] /\
        resp = respond (strftime_date (mkDate 2024 5 1)) L r1))
  end.
Proof.
  destruct (merge_today_videos ucd14_decimal sample_root ffmpeg_fast_fails sample_now (Some "2024-05-01")
              sample_world) as [w' resp] eqn:E.
  apply (fast_copy_then_reencode ucd14_decimal sample_root ffmpeg_fast_fails sample_now (Some "2024-05-01")
           sample_world w' (mkDate 2024 5 1) resp).
  - vm_compute. reflexivity.
  - reflexivity.
  - intros H. vm_compute in H. discriminate H.
  - exact E.
Defined.

Lemma no_candidates_no_transcoder_witness :
  merge_today_videos ucd14_decimal sample_root ffmpeg_ok sample_now (Some "2024-05-02") sample_world =
  (sample_world, MergeErr 404 ("No video files found for " ++ strftime_date (mkDate 2024 5 2))).
Proof.
  apply (no_candidates_no_transcoder ucd14_decimal sample_root ffmpeg_ok sample_now).
  - vm_compute. reflexivity.
  - reflexivity.
  - intros e He. unfold sample_world, sample_entries in He. cbn [w_entries In] in He.
    repeat destruct He as [<-|He]; try reflexivity; contradiction.
Defined.

(** C6: FastCopy's failed run leaves its partial output at the output path
    before ReencodeFallback runs; when both runs fail, a partial file stays
    at the output path after the 500 response. *)
Lemma failed_fast_copy_leaves_partial_output :
  match merge_videos_fast sample_root ffmpeg_fast_fails
          (ordered_candidates ucd14_decimal sample_entries "2024-05-01") (output_path_for "2024-05-01")
          sample_world with
  | (w1, inl (MRError _)) =>
      lookup_size (output_path_for "2024-05-01") sample_entries = None /\
      lookup_size (output_path_for "2024-05-01") (w_entries w1) = Some 4096
  | _ => False
  end /\
  match merge_today_videos ucd14_decimal sample_root ffmpeg_both_fail sample_now (Some "2024-05-01")
          sample_world with
  | (w', MergeErr c _) =>
      c = 500 /\ lookup_size (output_path_for "2024-05-01") (w_entries w') = Some 4096
  | _ => False
  end.
Proof. vm_compute. repeat split; reflexivity. Qed.

Lemma success_from_one_strategy_witness :
  match merge_today_videos ucd14_decimal sample_root ffmpeg_fast_fails sample_now (Some "2024-05-01")
          sample_world with
  | (w', resp) =>
    let L := ordered_candidates ucd14_decimal (w_entries sample_world) (strftime_date (mkDate 2024 5 1)) in
    let out := output_path_for (strftime_date (mkDate 2024 5 1)) in
    (exists oc1 oc2,
       w_entries w' = apply_outcome out oc2 (apply_outcome out oc1 (w_entries sample_world))) /\
    (forall msg today ins n of sz mb url,
       resp = MergeOk msg today ins n of sz mb url ->
       lookup_size out (w_entries w') = Some sz /\
       ((merge_videos_fast sample_root ffmpeg_fast_fails L out sample_world =
           (w', inl (MRSuccess msg of sz mb))) \/
        (exists w1 e1,
           merge_videos_fast sample_root ffmpeg_fast_fails L out sample_world =
             (w1, inl (MRError e1)) /\
           merge_videos_sync sample_root ffmpeg_fast_fails L out w1 =
             (w', inl (MRSuccess msg of sz mb)))))
  end.
Proof.
  destruct (merge_today_videos ucd14_decimal sample_root ffmpeg_fast_fails sample_now (Some "2024-05-01")
              sample_world) as [w' resp] eqn:E.
  apply (success_from_one_strategy ucd14_decimal sample_root ffmpeg_fast_fails sample_now (Some "2024-05-01")
           sample_world w' (mkDate 2024 5 1) resp).
  - vm_compute. reflexivity.
  - exact E.
Defined.

Lemma output_named_by_date_witness :
  match merge_today_videos ucd14_decimal sample_root ffmpeg_ok sample_now (Some "2024-05-01") sample_world with
  | (w', MergeOk msg today ins n of sz mb url) =>
    of = strftime_date (mkDate 2024 5 1) ++ ".mp4" /\
    output_path_for (strftime_date (mkDate 2024 5 1)) = mkPath EmptyString of /\
    url = "/static/" ++ of /\
    lookup_size (output_path_for (strftime_date (mkDate 2024 5 1))) (w_entries w') = Some sz /\
    exists m w2 md,
      ffmpeg_ok m (ordered_candidates ucd14_decimal (w_entries sample_world) (strftime_date (mkDate 2024 5 1)))
        (output_path_for (strftime_date (mkDate 2024 5 1))) w2 = RunOk sz md
  | _ => False
  end.
Proof.
  destruct (merge_today_videos ucd14_decimal sample_root ffmpeg_ok sample_now (Some "2024-05-01") sample_world)
    as [w' [msg today ins n of sz mb url|c m]] eqn:E.
  - apply (output_named_by_date ucd14_decimal sample_root ffmpeg_ok sample_now (Some "2024-05-01")
             sample_world w' (mkDate 2024 5 1) msg today ins n of sz mb url).
    + vm_compute. reflexivity.
    + exact E.
  - vm_compute in E. discriminate E.
Defined.

(** C8: a date that is not of the form YYYY-MM-DD but that [strptime]
    accepts is served (here with 200): single-digit month and day, or a
    year in non-ASCII decimal digits ([\d] matches them and [int()] reads
    them); and an empty [date_now] is taken as absent (the current date,
    here with 404 on an empty root). *)
Lemma lenient_date_not_rejected :
  is_yyyy_mm_dd "2024-5-1" = false /\
  resolve_date ucd14_decimal sample_now (Some "2024-5-1") = Some (mkDate 2024 5 1) /\
  merge_status (snd (merge_today_videos ucd14_decimal sample_root ffmpeg_ok sample_now
                       (Some "2024-5-1") sample_world)) = 200 /\
  is_yyyy_mm_dd fullwidth_year_date = false /\
  resolve_date ucd14_decimal sample_now (Some fullwidth_year_date) = Some (mkDate 2024 5 2) /\
  is_yyyy_mm_dd "" = false /\
  merge_status (snd (merge_today_videos ucd14_decimal sample_root ffmpeg_ok sample_now (Some "")
                       (mkWorld true [] [] []))) = 404.
Proof. vm_compute. repeat split; reflexivity. Qed.



(** C4: a candidate whose name is not valid UTF-8 (a byte [0xFF], which
    Python decodes to a lone surrogate) makes [f.write] raise inside the
    [with] block, outside the [try]/[finally] that unlinks the manifest:
    both strategy invocations leave their manifest in the temporary
    directory, and the response is a 500. *)
Theorem unencodable_name_leaves_manifests
    (ffmpeg : Mode -> list Path -> Path -> World -> RunOutcome) :
  match merge_today_videos ucd14_decimal sample_root ffmpeg sample_now (Some "2024-05-01")
          (mkWorld true [mkEntry (mkPath "" ("a_2024-05-01" ++ String "255"%char ".mp4"))
                                 true 300 "2024-05-01 09:00:00"] [] []) with
  | (w', resp) =>
      w_tmp w' = [2; 1]%list /\ length (invocations (w_log w')) = 2 /\ merge_status resp = 500
  end.
Proof. vm_compute. repeat split; reflexivity. Qed.

(* ================================================================== *)
(** * The file browser and the [yt] endpoints *)

(* ------------------------------------------------------------------ *)
(** ** Strings and paths *)

Local Open Scope list_scope.

Lemma str_append_nil_r (s : string) : (s ++ EmptyString)%string = s.
Proof. induction s as [|c s IH]; simpl; [reflexivity|now rewrite IH]. Qed.

Lemma str_append_assoc (a b c : string) : (a ++ (b ++ c))%string = ((a ++ b) ++ c)%string.
Proof. induction a as [|x a IH]; simpl; [reflexivity|now rewrite IH]. Qed.

Lemma str_length_append (a b : string) : String.length (a ++ b) = String.length a + String.length b.
Proof. induction a as [|x a IH]; simpl; [reflexivity|now rewrite IH]. Qed.

Lemma concat_empty_sep (l : list string) :
  String.concat EmptyString l = fold_right String.append EmptyString l.
Proof.
  induction l as [|x l IH]; [reflexivity|].
  destruct l as [|y l].
  - simpl. now rewrite str_append_nil_r.
  - change (String.concat EmptyString (x :: y :: l))
      with (x ++ (EmptyString ++ String.concat EmptyString (y :: l)))%string.
    rewrite IH. reflexivity.
Qed.

Lemma fold_append_app (l1 l2 : list string) :
  fold_right String.append EmptyString (l1 ++ l2) =
  (fold_right String.append EmptyString l1 ++ fold_right String.append EmptyString l2)%string.
Proof.
  induction l1 as [|x l1 IH]; simpl; [reflexivity|].
  now rewrite IH, str_append_assoc.
Qed.

Lemma str_abs_nonnil (p : list string) :
  p <> [] -> str_abs p = fold_right String.append EmptyString (map (String "/"%char) p).
Proof.
  intros Hp. destruct p as [|c p]; [congruence|].
  unfold str_abs. apply concat_empty_sep.
Qed.

Lemma prefix_app_r (s u : string) : String.prefix s (s ++ u) = true.
Proof.
  induction s as [|c s IH]; [destruct u; reflexivity|].
  simpl. destruct (ascii_dec c c); [exact IH|contradiction].
Qed.

Lemma prefix_app_cancel (s a b : string) :
  String.prefix (s ++ a) (s ++ b) = String.prefix a b.
Proof.
  induction s as [|c s IH]; [reflexivity|].
  simpl. destruct (ascii_dec c c); [exact IH|contradiction].
Qed.


Lemma split_slash_nonnil (s : string) : split_slash s <> [].
Proof.
  induction s as [|c s IH]; simpl; [discriminate|].
  destruct (Ascii.eqb c "/"%char); [discriminate|].
  destruct (split_slash s); discriminate.
Qed.

Lemma split_slash_app_slash (a b : string) :
  split_slash (a ++ String "/"%char b) = split_slash a ++ split_slash b.
Proof.
  induction a as [|c a IH]; [reflexivity|].
  cbn [String.append split_slash]. rewrite IH.
  destruct (Ascii.eqb c "/"%char); [reflexivity|].
  destruct (split_slash a) eqn:E; [exfalso; exact (split_slash_nonnil a E)|reflexivity].
Qed.

Lemma has_slash_app (a b : string) : has_slash (a ++ b) = has_slash a || has_slash b.
Proof.
  induction a as [|c a IH]; simpl; [reflexivity|]. now rewrite IH, orb_assoc.
Qed.

Lemma split_slash_no_slash (s : string) : has_slash s = false -> split_slash s = [s].
Proof.
  induction s as [|c s IH]; simpl; [reflexivity|].
  intros H. apply orb_false_iff in H as [H1 H2]. now rewrite H1, (IH H2).
Qed.

Lemma path_parts_app_slash (a b : string) :
  path_parts (a ++ String "/"%char b) = path_parts a ++ path_parts b.
Proof. unfold path_parts. now rewrite split_slash_app_slash, filter_app. Qed.

Lemma plain_name_spec (s : string) :
  plain_name s = true <->
  has_slash s = false /\ s <> EmptyString /\ s <> "."%string /\ s <> ".."%string.
Proof.
  unfold plain_name. rewrite !andb_true_iff, !negb_true_iff, !String.eqb_neq. tauto.
Qed.

Lemma path_parts_plain (s : string) : plain_name s = true -> path_parts s = [s].
Proof.
  intros H. apply plain_name_spec in H as (H1 & H2 & H3 & _).
  unfold path_parts. rewrite split_slash_no_slash by exact H1. simpl.
  apply String.eqb_neq in H2, H3. now rewrite H2, H3.
Qed.


Lemma parts_eqb_eq (a b : list string) : parts_eqb a b = true <-> a = b.
Proof.
  revert b. induction a as [|x a IH]; intros [|y b]; simpl; try (split; congruence).
  rewrite andb_true_iff, String.eqb_eq, IH. split; [intros [-> ->]; reflexivity|].
  intros H; injection H; auto.
Qed.

Lemma parts_eqb_refl (a : list string) : parts_eqb a a = true.
Proof. now apply parts_eqb_eq. Qed.

Lemma parts_prefix_app_cancel (c a b : list string) :
  parts_prefix (c ++ a) (c ++ b) = parts_prefix a b.
Proof. induction c as [|x c IH]; simpl; [reflexivity|]. now rewrite String.eqb_refl. Qed.


(** The two folders: one plain component below the working directory. *)
Lemma base_dir_facts (t : Tree) (base : string) :
  base = n8n_dir \/ base = yt_dir ->
  plain_name base = true /\ path_parts base = [base] /\ root_res t base = t_cwd t ++ [base].
Proof. intros [-> | ->]; repeat split; reflexivity. Qed.

Lemma target_res_relative (t : Tree) (base rel : string) :
  base = n8n_dir \/ base = yt_dir -> is_abs rel = false ->
  target_res t base rel = resolve_parts (t_cwd t ++ [base]) (path_parts rel).
Proof.
  intros Hb Ha. destruct (base_dir_facts t base Hb) as (Hpl & Hp & _).
  apply plain_name_spec in Hpl as (_ & _ & _ & Hdd).
  unfold target_res. rewrite Ha, Hp. unfold resolve_parts. simpl.
  unfold resolve_step at 2. now destruct (String.eqb_spec base "..").
Qed.

(** A path [../<base><x>/<f>] names the file [f] of the sibling folder
    [<base><x>]: it resolves there, and the textual prefix check passes. *)
Lemma sibling_target (t : Tree) (base x f : string) :
  base = n8n_dir \/ base = yt_dir -> x <> EmptyString -> has_slash x = false ->
  plain_name f = true ->
  target_res t base ("../" ++ base ++ x ++ "/" ++ f)%string = t_cwd t ++ [(base ++ x)%string; f] /\
  access_ok t base ("../" ++ base ++ x ++ "/" ++ f)%string = true /\
  parts_prefix (root_res t base) (t_cwd t ++ [(base ++ x)%string; f]) = false /\
  path_parts ("../" ++ base ++ x ++ "/" ++ f)%string = [".."%string; (base ++ x)%string; f].
Proof.
  intros Hb Hx Hxs Hf.
  destruct (base_dir_facts t base Hb) as (Hpl & Hp & Hr).
  apply plain_name_spec in Hpl as (Hbs & Hbe & _ & Hbd).
  assert (Hlen : String.length x >= 1) by (destruct x; [congruence|simpl; lia]).
  assert (Hblen : String.length base >= 2) by (destruct Hb as [-> | ->]; simpl; lia).
  assert (Hbx : plain_name (base ++ x) = true).
  { apply plain_name_spec. rewrite has_slash_app, Hbs, Hxs. repeat split; intros E;
      apply (f_equal String.length) in E; rewrite str_length_append in E; simpl in E; lia. }
  assert (Hs : ("../" ++ base ++ x ++ "/" ++ f)%string%string =
               (".." ++ String "/"%char ((base ++ x) ++ String "/"%char f))%string).
  { simpl. now rewrite str_append_assoc. }
  assert (Hparts : path_parts ("../" ++ base ++ x ++ "/" ++ f)%string = [".."%string; (base ++ x)%string; f]).
  { rewrite Hs, !path_parts_app_slash, (path_parts_plain _ Hbx), (path_parts_plain _ Hf).
    reflexivity. }
  assert (Ht : target_res t base ("../" ++ base ++ x ++ "/" ++ f)%string = t_cwd t ++ [(base ++ x)%string; f]).
  { rewrite target_res_relative by (try exact Hb; rewrite Hs; reflexivity).
    rewrite Hparts. unfold resolve_parts. simpl. unfold resolve_step.
    apply plain_name_spec in Hbx as (_ & _ & _ & Hbxd), Hf as (_ & _ & _ & Hfd).
    rewrite String.eqb_refl, removelast_last.
    destruct (String.eqb_spec (base ++ x) ".."); [contradiction|].
    destruct (String.eqb_spec f ".."); [contradiction|].
    now rewrite <- app_assoc. }
  repeat split; [exact Ht| | |exact Hparts].
  - unfold access_ok. rewrite Ht, Hr, !str_abs_nonnil by (destruct (t_cwd t); discriminate).
    rewrite !map_app, !fold_append_app, prefix_app_cancel. simpl.
    destruct (ascii_dec "/" "/"); [|contradiction].
    rewrite str_append_nil_r, <- str_append_assoc. apply prefix_app_r.
  - rewrite Hr, parts_prefix_app_cancel. simpl.
    destruct (String.eqb_spec base (base ++ x)) as [E|]; [|reflexivity].
    apply (f_equal String.length) in E. rewrite str_length_append in E. lia.
Qed.

(* ------------------------------------------------------------------ *)
(** ** Reading the tree after a change *)

Lemma lookup_node_filter (P : list string -> bool) (q : list string)
    (ns : list (list string * Node)) :
  lookup_node q (filter (fun qn => negb (P (fst qn))) ns) =
  if P q then None else lookup_node q ns.
Proof.
  induction ns as [|[q' n] ns IH]; simpl; [now destruct (P q)|].
  destruct (parts_eqb q q') eqn:E.
  - apply parts_eqb_eq in E. subst q'.
    destruct (P q) eqn:Pq; simpl; [exact IH|]. now rewrite parts_eqb_refl.
  - destruct (P q'); simpl; [exact IH|]. now rewrite E.
Qed.


Lemma node_at_rmtree (p q : list string) (t : Tree) :
  q <> [] -> node_at (rmtree p t) q = if parts_prefix p q then None else node_at t q.
Proof.
  intros Hq. destruct q as [|c q]; [congruence|].
  unfold node_at, rmtree. simpl t_nodes. apply (lookup_node_filter (parts_prefix p)).
Qed.

Lemma parts_eqb_sym (a b : list string) : parts_eqb a b = parts_eqb b a.
Proof.
  destruct (parts_eqb a b) eqn:E1, (parts_eqb b a) eqn:E2; try reflexivity.
  - apply parts_eqb_eq in E1. subst. now rewrite parts_eqb_refl in E2.
  - apply parts_eqb_eq in E2. subst. now rewrite parts_eqb_refl in E1.
Qed.

Lemma lookup_put_node_list (p q : list string) (n : Node) (ns : list (list string * Node)) :
  lookup_node q (put_node_list p n ns) = if parts_eqb p q then Some n else lookup_node q ns.
Proof.
  induction ns as [|[q' m] ns IH]; simpl.
  - rewrite (parts_eqb_sym p q). now destruct (parts_eqb q p).
  - destruct (parts_eqb p q') eqn:Epq'; simpl.
    + apply parts_eqb_eq in Epq'. subst q'. rewrite (parts_eqb_sym p q).
      now destruct (parts_eqb q p).
    + rewrite IH. destruct (parts_eqb q q') eqn:Eqq'; [|reflexivity].
      apply parts_eqb_eq in Eqq'. subst q'. now rewrite Epq'.
Qed.

Lemma node_at_put (p q : list string) (n : Node) (t : Tree) :
  q <> [] -> node_at (put_node p n t) q = if parts_eqb p q then Some n else node_at t q.
Proof.
  intros Hq. destruct q as [|c q]; [congruence|].
  unfold node_at, put_node. simpl t_nodes. apply lookup_put_node_list.
Qed.

Lemma t_cwd_put (p : list string) (n : Node) (t : Tree) : t_cwd (put_node p n t) = t_cwd t.
Proof. reflexivity. Qed.


Lemma is_dir_exists (t : Tree) (p : list string) : is_dir_at t p = true -> exists_at t p = true.
Proof. unfold is_dir_at, exists_at. destruct (node_at t p) as [[]|]; congruence. Qed.

Lemma is_file_exists (t : Tree) (p : list string) : is_file_at t p = true -> exists_at t p = true.
Proof. unfold is_file_at, exists_at. destruct (node_at t p) as [[]|]; congruence. Qed.

Lemma is_dir_not_file (t : Tree) (p : list string) : is_dir_at t p = true -> is_file_at t p = false.
Proof. unfold is_dir_at, is_file_at. destruct (node_at t p) as [[]|]; congruence. Qed.

(* ------------------------------------------------------------------ *)
(** ** The access check *)



(** X2: [delete_item] removes a file of a sibling folder whose name extends
    [n8n_ffmpeg] (as [n8n_ffmpeg_backup]): the path
    [../n8n_ffmpeg<x>/<f>] resolves outside the root, yet passes the
    textual prefix check. *)
Theorem delete_item_sibling_prefix (t : Tree) (x f : string) (sz : nat) :
  x <> EmptyString -> has_slash x = false -> plain_name f = true ->
  node_at t (t_cwd t ++ [(n8n_dir ++ x)%string; f]) = Some (NFile sz) ->
  parts_prefix (root_res t n8n_dir) (t_cwd t ++ [(n8n_dir ++ x)%string; f]) = false /\
  delete_item t ("../" ++ n8n_dir ++ x ++ "/" ++ f)%string =
    (unlink (t_cwd t ++ [(n8n_dir ++ x)%string; f]) t,
     Redirect ("/folder/../" ++ n8n_dir ++ x)%string 303).
Proof.
  intros Hx Hxs Hf Hn.
  destruct (sibling_target t n8n_dir x f (or_introl eq_refl) Hx Hxs Hf)
    as (Ht & Ha & Hp & Hparts).
  split; [exact Hp|]. unfold delete_item. rewrite Ht, Ha.
  unfold exists_at, is_dir_at. rewrite Hn. cbn [negb]. f_equal. f_equal.
  unfold redirect_for, py_parent_str. rewrite Hparts. reflexivity.
Qed.

Lemma delete_item_sibling_prefix_witness :
  "_backup"%string <> EmptyString /\ has_slash "_backup" = false /\ plain_name "old.mp4" = true /\
  node_at sample_tree (t_cwd sample_tree ++ [(n8n_dir ++ "_backup")%string; "old.mp4"%string]) =
    Some (NFile 100) /\
  parts_prefix (root_res sample_tree n8n_dir)
    (t_cwd sample_tree ++ [(n8n_dir ++ "_backup")%string; "old.mp4"%string]) = false /\
  delete_item sample_tree ("../" ++ n8n_dir ++ "_backup" ++ "/" ++ "old.mp4")%string =
    (unlink (t_cwd sample_tree ++ [(n8n_dir ++ "_backup")%string; "old.mp4"%string]) sample_tree,
     Redirect ("/folder/../" ++ n8n_dir ++ "_backup")%string 303).
Proof.
  assert (H1 : "_backup"%string <> EmptyString) by discriminate.
  assert (H2 : has_slash "_backup" = false) by reflexivity.
  assert (H3 : plain_name "old.mp4" = true) by reflexivity.
  assert (H4 : node_at sample_tree (t_cwd sample_tree ++ [(n8n_dir ++ "_backup")%string; "old.mp4"%string]) =
               Some (NFile 100)) by reflexivity.
  destruct (delete_item_sibling_prefix sample_tree "_backup" "old.mp4" 100 H1 H2 H3 H4) as [H5 H6].
  repeat split; assumption.
Defined.

(** X3: [get_file_url] and [delete_file_from_yt] reach a file of a sibling
    folder whose name extends [yt] (as [ytarchive]) through
    [../yt<x>/<f>]: the first gives its URL and size, the second removes
    it. *)
Theorem yt_sibling_prefix (t : Tree) (base_url x f : string) (sz : nat) :
  x <> EmptyString -> has_slash x = false -> plain_name f = true ->
  node_at t (t_cwd t ++ [(yt_dir ++ x)%string; f]) = Some (NFile sz) ->
  parts_prefix (root_res t yt_dir) (t_cwd t ++ [(yt_dir ++ x)%string; f]) = false /\
  yt_status (get_file_url t base_url ("../" ++ yt_dir ++ x ++ "/" ++ f)%string) = 200 /\
  delete_file_from_yt t ("../" ++ yt_dir ++ x ++ "/" ++ f)%string =
    (unlink (t_cwd t ++ [(yt_dir ++ x)%string; f]) t,
     YtDeleted ("File '" ++ ("../" ++ yt_dir ++ x ++ "/" ++ f) ++ "' deleted successfully")%string).
Proof.
  intros Hx Hxs Hf Hn.
  destruct (sibling_target t yt_dir x f (or_intror eq_refl) Hx Hxs Hf)
    as (Ht & Ha & Hp & _).
  split; [exact Hp|]. unfold get_file_url, delete_file_from_yt.
  rewrite Ht, Ha. unfold exists_at, is_file_at. rewrite Hn. split; reflexivity.
Qed.

Lemma yt_sibling_prefix_witness :
  "archive"%string <> EmptyString /\ has_slash "archive" = false /\ plain_name "v.mp4" = true /\
  node_at (put_node ["srv"; "app"; "ytarchive"; "v.mp4"]%string (NFile 7) sample_tree)
    (t_cwd sample_tree ++ [(yt_dir ++ "archive")%string; "v.mp4"%string]) = Some (NFile 7) /\
  yt_status (get_file_url (put_node ["srv"; "app"; "ytarchive"; "v.mp4"]%string (NFile 7) sample_tree)
    "http://host/" ("../" ++ yt_dir ++ "archive" ++ "/" ++ "v.mp4")%string) = 200.
Proof.
  assert (H1 : "archive"%string <> EmptyString) by discriminate.
  assert (H2 : has_slash "archive" = false) by reflexivity.
  assert (H3 : plain_name "v.mp4" = true) by reflexivity.
  assert (H4 : node_at (put_node ["srv"; "app"; "ytarchive"; "v.mp4"]%string (NFile 7) sample_tree)
    (t_cwd sample_tree ++ [(yt_dir ++ "archive")%string; "v.mp4"%string]) = Some (NFile 7))
    by reflexivity.
  destruct (yt_sibling_prefix _ "http://host/" "archive" "v.mp4" 7 H1 H2 H3 H4) as (_ & H5 & _).
  repeat split; assumption.
Defined.

(* ------------------------------------------------------------------ *)
(** ** [browse_folder], [delete_item], [delete_multiple] *)

(** X4: [browse_folder] never lists an entry: a listing is always empty, and
    an accessible folder with at least one entry gives a 500. *)
Theorem browse_folder_lists_nothing (exc_text : PyError -> string) (t : Tree) (path : string) :
  (forall title cp items, browse_folder exc_text t path = Listing title cp items -> items = []) /\
  (access_ok t n8n_dir path = true -> is_dir_at t (target_res t n8n_dir path) = true ->
   children t (target_res t n8n_dir path) <> [] ->
   page_status (browse_folder exc_text t path) = 500).
Proof.
  unfold browse_folder. split.
  - intros title cp items.
    destruct (negb (access_ok t n8n_dir path)); [discriminate|].
    destruct (_ || _); [discriminate|].
    destruct (children t _) as [|[q n] cs]; [congruence|discriminate].
  - intros Ha Hd Hc. rewrite Ha, Hd, (is_dir_exists _ _ Hd). simpl.
    destruct (children t _) as [|[q n] cs]; [congruence|reflexivity].
Qed.

Lemma browse_folder_lists_nothing_witness :
  access_ok sample_tree n8n_dir "cam1" = true /\
  is_dir_at sample_tree (target_res sample_tree n8n_dir "cam1") = true /\
  children sample_tree (target_res sample_tree n8n_dir "cam1") <> [] /\
  page_status (browse_folder (fun _ => EmptyString) sample_tree "cam1") = 500 /\
  (forall title cp items,
     browse_folder (fun _ => EmptyString) sample_tree "cam2" = Listing title cp items -> items = []).
Proof.
  assert (H1 : access_ok sample_tree n8n_dir "cam1" = true) by reflexivity.
  assert (H2 : is_dir_at sample_tree (target_res sample_tree n8n_dir "cam1") = true) by reflexivity.
  assert (H3 : children sample_tree (target_res sample_tree n8n_dir "cam1") <> []) by discriminate.
  refine (conj H1 (conj H2 (conj H3 (conj _ _)))).
  - exact (proj2 (browse_folder_lists_nothing (fun _ => EmptyString) sample_tree "cam1") H1 H2 H3).
  - exact (proj1 (browse_folder_lists_nothing (fun _ => EmptyString) sample_tree "cam2")).
Defined.



(** X6: The path [.] names the root itself: when it is a folder,
    [delete_item] removes it with everything in it. *)
Theorem delete_item_dot_removes_root (t : Tree) :
  is_dir_at t (root_res t n8n_dir) = true ->
  delete_item t "." = (rmtree (root_res t n8n_dir) t, Redirect "/" 303) /\
  forall q, parts_prefix (root_res t n8n_dir) q = true ->
    node_at (rmtree (root_res t n8n_dir) t) q = None.
Proof.
  intros Hd.
  assert (Ht : target_res t n8n_dir "." = root_res t n8n_dir).
  { rewrite target_res_relative by (try left; reflexivity).
    destruct (base_dir_facts t n8n_dir (or_introl eq_refl)) as (_ & _ & ->). reflexivity. }
  split.
  - unfold delete_item. rewrite Ht.
    unfold access_ok. rewrite Ht.
    assert (Hp : String.prefix (str_abs (root_res t n8n_dir)) (str_abs (root_res t n8n_dir)) = true).
    { rewrite <- (str_append_nil_r (str_abs (root_res t n8n_dir))) at 2. apply prefix_app_r. }
    rewrite Hp, (is_dir_exists _ _ Hd), Hd. reflexivity.
  - intros q Hq. assert (Hne : q <> []).
    { destruct (base_dir_facts t n8n_dir (or_introl eq_refl)) as (_ & _ & Hr).
      rewrite Hr in Hq. intros ->. destruct (t_cwd t); discriminate. }
    rewrite node_at_rmtree, Hq by exact Hne. reflexivity.
Qed.

Lemma delete_item_dot_removes_root_witness :
  is_dir_at sample_tree (root_res sample_tree n8n_dir) = true /\
  delete_item sample_tree "." = (rmtree (root_res sample_tree n8n_dir) sample_tree, Redirect "/" 303).
Proof.
  assert (H : is_dir_at sample_tree (root_res sample_tree n8n_dir) = true) by reflexivity.
  exact (conj H (proj1 (delete_item_dot_removes_root sample_tree H))).
Defined.

Lemma delete_each_fold (t : Tree) (sel : list string) (d : nat) (e : list string) :
  fst (fst (delete_each t sel d e)) = fold_left (fun t p => fst (delete_item t p)) sel t.
Proof.
  revert t d e. induction sel as [|p sel IH]; intros t d e; [reflexivity|].
  simpl. unfold delete_item at 2.
  destruct (negb (access_ok t n8n_dir p)); [apply IH|].
  destruct (negb (exists_at t (target_res t n8n_dir p))); [apply IH|].
  apply IH.
Qed.

(** X7: [delete_multiple] has the effect of [delete_item] applied to each
    selected path in turn (paths that fail a check are skipped), and
    always answers a 303 to the folder of the first selected path, also
    when nothing could be deleted. *)
Theorem delete_multiple_sequential (t : Tree) (sel : list string) :
  delete_multiple t sel =
  (fold_left (fun t p => fst (delete_item t p)) sel t,
   Redirect (match sel with [] => "/"%string | p :: _ => redirect_for p end) 303).
Proof.
  unfold delete_multiple. rewrite <- (delete_each_fold t sel 0 []).
  now destruct (delete_each t sel 0 []) as [[t' d] e].
Qed.

(* ------------------------------------------------------------------ *)
(** ** [download_multiple] *)

Lemma zip_members_dir_error (zip_time_ok : list string -> bool) (t : Tree) (sel : list string)
    (p : string) :
  In p sel -> access_ok t n8n_dir p = true -> is_dir_at t (target_res t n8n_dir p) = true ->
  files_under t (target_res t n8n_dir p) <> [] -> exists e, zip_members zip_time_ok t sel = inl e.
Proof.
  intros Hin Ha Hd Hf. induction sel as [|p' sel IH]; [destruct Hin|].
  cbn [zip_members]. destruct Hin as [<-|Hin].
  - rewrite Ha, (is_dir_exists _ _ Hd), (is_dir_not_file _ _ Hd), Hd. cbn [negb].
    destruct (files_under t _) as [|[q n] l]; [congruence|eexists; reflexivity].
  - destruct (IH Hin) as [e He].
    destruct (negb (access_ok t n8n_dir p')); [now exists e|].
    destruct (negb (exists_at t (target_res t n8n_dir p'))); [now exists e|].
    destruct (is_file_at t (target_res t n8n_dir p')).
    + destruct (zip_arcname p'); [destruct (negb (zip_time_ok _)); [|rewrite He]|];
        eexists; reflexivity.
    + destruct (is_dir_at t (target_res t n8n_dir p')); [|now exists e].
      destruct (files_under t (target_res t n8n_dir p')) as [|[q n] l];
        [now exists e|eexists; reflexivity].
Qed.

(** X8: A selected folder that passes the access check and holds a file
    somewhere below it makes [download_multiple] fail with a 500, wherever
    it stands in the selection. *)
Theorem download_multiple_folder_fails (exc_text : PyError -> string)
    (zip_time_ok : list string -> bool) (t : Tree)
    (stamp : string) (sel : list string) (p : string) :
  In p sel -> access_ok t n8n_dir p = true -> is_dir_at t (target_res t n8n_dir p) = true ->
  files_under t (target_res t n8n_dir p) <> [] ->
  exists d, download_multiple exc_text zip_time_ok t stamp sel = DownloadError 500 d.
Proof.
  intros Hin Ha Hd Hf. destruct (zip_members_dir_error zip_time_ok t sel p Hin Ha Hd Hf) as [e He].
  destruct sel as [|p0 sel]; [destruct Hin|].
  unfold download_multiple. rewrite He. eexists. reflexivity.
Qed.

Lemma download_multiple_folder_fails_witness :
  In "cam1"%string ["b.txt"; "cam1"]%string /\ access_ok sample_tree n8n_dir "cam1" = true /\
  is_dir_at sample_tree (target_res sample_tree n8n_dir "cam1") = true /\
  files_under sample_tree (target_res sample_tree n8n_dir "cam1") <> [] /\
  exists d, download_multiple (fun _ => EmptyString) (fun _ => true) sample_tree "20241015_120000"
              ["b.txt"; "cam1"]%string = DownloadError 500 d.
Proof.
  assert (H1 : In "cam1"%string ["b.txt"; "cam1"]%string) by (right; left; reflexivity).
  assert (H2 : access_ok sample_tree n8n_dir "cam1" = true) by reflexivity.
  assert (H3 : is_dir_at sample_tree (target_res sample_tree n8n_dir "cam1") = true) by reflexivity.
  assert (H4 : files_under sample_tree (target_res sample_tree n8n_dir "cam1") <> []) by discriminate.
  exact (conj H1 (conj H2 (conj H3 (conj H4
    (download_multiple_folder_fails (fun _ => EmptyString) (fun _ => true) sample_tree "20241015_120000"
       ["b.txt"; "cam1"]%string "cam1" H1 H2 H3 H4))))).
Defined.

Lemma zip_members_ok (zip_time_ok : list string -> bool) (t : Tree) (sel : list string) :
  (forall p, In p sel -> access_ok t n8n_dir p = true ->
     (is_dir_at t (target_res t n8n_dir p) = true -> files_under t (target_res t n8n_dir p) = []) /\
     (is_file_at t (target_res t n8n_dir p) = true ->
      zip_arcname p <> None /\ zip_time_ok (target_res t n8n_dir p) = true)) ->
  zip_members zip_time_ok t sel =
  inr (flat_map (fun p => if access_ok t n8n_dir p && is_file_at t (target_res t n8n_dir p)
                          then match zip_arcname p with
                               | Some a => [(a, target_res t n8n_dir p)]
                               | None => []
                               end
                          else []) sel).
Proof.
  induction sel as [|p sel IH]; intros H; [reflexivity|].
  cbn [zip_members flat_map].
  rewrite IH by (intros p' Hin Ha; apply H; [right; exact Hin|exact Ha]).
  destruct (access_ok t n8n_dir p) eqn:Ea; cbn [negb andb]; [|reflexivity].
  destruct (H p (or_introl eq_refl) Ea) as [Hd Hf].
  destruct (exists_at t (target_res t n8n_dir p)) eqn:Ee; cbn [negb].
  - destruct (is_file_at t _) eqn:Efile.
    + destruct (Hf eq_refl) as [Ha' Ht]. rewrite Ht. cbn [negb].
      destruct (zip_arcname p) eqn:Ez; [reflexivity|exfalso; now apply Ha'].
    + destruct (is_dir_at t _); [rewrite (Hd eq_refl)|]; reflexivity.
  - destruct (is_file_at t _) eqn:Efile; [|reflexivity].
    now rewrite (is_file_exists _ _ Efile) in Ee.
Qed.

(** X9: When no selected path has a NUL byte, every selected path that
    passes the check resolves to a path the system takes, no selected folder
    that passes the check holds a file, and every selected file that passes
    it has an archive name and a modification time a ZIP entry can hold
    (1980 to 2107), [download_multiple] streams a ZIP named after the time
    stamp whose members are exactly the selected files that pass the check,
    in selection order, each stored under its normalised path; folders,
    missing and refused paths add nothing. *)
Theorem download_multiple_members (exc_text : PyError -> string)
    (zip_time_ok : list string -> bool) (t : Tree) (stamp : string) (sel : list string) :
  sel <> [] ->
  (forall p, In p sel -> has_nul p = false) ->
  (forall p, In p sel -> access_ok t n8n_dir p = true ->
     os_path_ok (str_abs (target_res t n8n_dir p)) = true /\
     (is_dir_at t (target_res t n8n_dir p) = true -> files_under t (target_res t n8n_dir p) = []) /\
     (is_file_at t (target_res t n8n_dir p) = true ->
      zip_arcname p <> None /\ zip_time_ok (target_res t n8n_dir p) = true)) ->
  download_multiple exc_text zip_time_ok t stamp sel =
  ZipStream ("n8n_files_" ++ stamp ++ ".zip")%string
    (flat_map (fun p => if access_ok t n8n_dir p && is_file_at t (target_res t n8n_dir p)
                        then match zip_arcname p with
                             | Some a => [(a, target_res t n8n_dir p)]
                             | None => []
                             end
                        else []) sel).
Proof.
  intros Hne _ H. destruct sel as [|p0 sel]; [congruence|].
  unfold download_multiple. rewrite (zip_members_ok zip_time_ok t _); [reflexivity|].
  intros p Hin Ha. apply (H p Hin Ha).
Qed.

Lemma download_multiple_members_witness :
  download_multiple (fun _ => EmptyString) (fun _ => true) sample_tree "20241015_120000"
    ["cam1/a.mp4"; "missing.mp4"; "cam2"; "/etc/passwd"; "b.txt"]%string =
  ZipStream "n8n_files_20241015_120000.zip"
    [("cam1/a.mp4"%string, ["srv"; "app"; "n8n_ffmpeg"; "cam1"; "a.mp4"]%string);
     ("b.txt"%string, ["srv"; "app"; "n8n_ffmpeg"; "b.txt"]%string)].
Proof.
  rewrite (download_multiple_members (fun _ => EmptyString) (fun _ => true) sample_tree
    "20241015_120000" ["cam1/a.mp4"; "missing.mp4"; "cam2"; "/etc/passwd"; "b.txt"]%string).
  - vm_compute. reflexivity.
  - discriminate.
  - intros p Hin. simpl in Hin.
    repeat (destruct Hin as [<-|Hin]; [reflexivity|]). destruct Hin.
  - intros p Hin _. simpl in Hin.
    repeat (destruct Hin as [<-|Hin];
            [split; [vm_compute; reflexivity|];
             split; intros Hx; vm_compute in Hx |- *;
             first [reflexivity|discriminate|congruence|split; [discriminate|reflexivity]]|]).
    destruct Hin.
Defined.

(* ------------------------------------------------------------------ *)
(** ** [list_yt_files] *)

(** X12: [list_yt_files] answers 404 when the [yt] folder is missing.
    Otherwise, when every name is valid UTF-8, it lists every file below
    [yt] (in subfolders too) exactly once, sorted by its relative name in
    code-point order, with [total_files] its count; when some name is not,
    the JSON encoding of the answer raises and it answers 500. *)
Theorem list_yt_files_spec (exc_text : PyError -> string) (t : Tree) :
  (exists_at t (root_res t yt_dir) = false ->
   list_yt_files exc_text t = YtListError 404 "yt folder not found") /\
  (exists_at t (root_res t yt_dir) = true ->
   (forall f, In f (map (yt_entry (root_res t yt_dir)) (files_under t (root_res t yt_dir))) ->
      valid_utf8 (yf_name f) = true) ->
   exists files,
     list_yt_files exc_text t = YtList (length files) files /\
     Permutation files (map (yt_entry (root_res t yt_dir)) (files_under t (root_res t yt_dir))) /\
     Sorted (key_le yf_name) files) /\
  (exists_at t (root_res t yt_dir) = true ->
   (exists f, In f (map (yt_entry (root_res t yt_dir)) (files_under t (root_res t yt_dir))) /\
      valid_utf8 (yf_name f) = false) ->
   list_yt_files exc_text t = YtListError 500 (exc_text EEncode)).
Proof.
  unfold list_yt_files. split; [|split].
  - intros He. now rewrite He.
  - intros He Hu. rewrite He. cbn [negb].
    rewrite (proj2 (forallb_forall _ _)).
    + eexists. split; [|split; [apply sort_by_perm|apply sort_by_sorted]].
      f_equal. symmetry. apply Permutation_length, sort_by_perm.
    + intros f Hf. apply Hu.
      exact (Permutation_in _ (sort_by_perm yf_name _) Hf).
  - intros He (f & Hf & Hu). rewrite He. cbn [negb].
    destruct (forallb _ _) eqn:Ea; [|reflexivity].
    rewrite forallb_forall in Ea.
    rewrite (Ea f (Permutation_in _ (Permutation_sym (sort_by_perm yf_name _)) Hf)) in Hu.
    discriminate Hu.
Qed.

Lemma list_yt_files_spec_witness :
  exists_at sample_tree (root_res sample_tree yt_dir) = true /\
  (forall f, In f (map (yt_entry (root_res sample_tree yt_dir))
                       (files_under sample_tree (root_res sample_tree yt_dir))) ->
     valid_utf8 (yf_name f) = true) /\
  exists files, list_yt_files (fun _ => EmptyString) sample_tree = YtList (length files) files /\
    Sorted (key_le yf_name) files.
Proof.
  assert (H : exists_at sample_tree (root_res sample_tree yt_dir) = true) by reflexivity.
  assert (Hu : forall f, In f (map (yt_entry (root_res sample_tree yt_dir))
                                   (files_under sample_tree (root_res sample_tree yt_dir))) ->
                 valid_utf8 (yf_name f) = true).
  { intros f Hf. vm_compute in Hf.
    repeat (destruct Hf as [<-|Hf]; [reflexivity|]). destruct Hf. }
  refine (conj H (conj Hu _)).
  destruct (proj1 (proj2 (list_yt_files_spec (fun _ => EmptyString) sample_tree)) H Hu)
    as (files & H1 & _ & H3).
  exists files. split; assumption.
Defined.

(* ------------------------------------------------------------------ *)
(** ** The [yt] upload, URL and delete endpoints *)



Lemma in_put_node_list_inv (p : list string) (n : Node) (ns : list (list string * Node))
    (x : list string * Node) :
  In x (put_node_list p n ns) -> x = (p, n) \/ In x ns.
Proof.
  induction ns as [|[q m] ns IH]; cbn [put_node_list].
  - intros [<-|[]]. now left.
  - destruct (parts_eqb p q) eqn:E.
    + apply parts_eqb_eq in E. subst q. intros [<-|Hx]; [now left|right; now right].
    + intros [<-|Hx]; [right; now left|]. destruct (IH Hx); [now left|right; now right].
Qed.

(** [yt.mkdir(exist_ok=True)] in a working directory that is a folder,
    where [yt] is not a file: [yt] is a folder afterwards and nothing else
    changes. *)
Lemma mkdir_yt (t : Tree) :
  is_dir_at t (t_cwd t) = true -> is_file_at t (root_res t yt_dir) = false ->
  exists t1, mkdir_exist_ok t yt_dir = inr t1 /\ t_cwd t1 = t_cwd t /\
    is_dir_at t1 (root_res t yt_dir) = true /\
    (forall q, q <> root_res t yt_dir -> node_at t1 q = node_at t q) /\
    (forall x, In x (t_nodes t1) -> In x (t_nodes t) \/ x = (root_res t yt_dir, NDir)).
Proof.
  intros Hc Hf. destruct (base_dir_facts t yt_dir (or_intror eq_refl)) as (_ & Hp & Hr).
  assert (Hos : os_path t yt_dir = inr (root_res t yt_dir)).
  { unfold os_path. rewrite Hp, Hr. change (is_abs yt_dir) with false. cbv iota.
    cbn [os_walk]. rewrite Hc. reflexivity. }
  unfold mkdir_exist_ok. rewrite Hos.
  unfold is_file_at in Hf. destruct (node_at t (root_res t yt_dir)) as [[sz|]|] eqn:En.
  - discriminate.
  - exists t. split; [reflexivity|]. split; [reflexivity|].
    split; [unfold is_dir_at; now rewrite En|]. split; [intros; reflexivity|intros x Hx; now left].
  - rewrite Hr, removelast_last, Hc. rewrite Hr in En.
    assert (Hne : t_cwd t ++ [yt_dir] <> []) by (destruct (t_cwd t); discriminate).
    eexists. split; [reflexivity|]. split; [reflexivity|]. split; [|split].
    + unfold is_dir_at. rewrite node_at_put, parts_eqb_refl by exact Hne. reflexivity.
    + intros q Hq. destruct q as [|c q]; [reflexivity|]. rewrite node_at_put by discriminate.
      destruct (parts_eqb _ _) eqn:E; [apply parts_eqb_eq in E; congruence|reflexivity].
    + intros x Hx. unfold put_node in Hx. cbn [t_nodes] in Hx.
      destruct (in_put_node_list_inv _ _ _ _ Hx); [now right|now left].
Qed.






(** X13: [upload_file_to_yt] without a file name answers 400, but only after
    it has created the [yt] folder. *)
Theorem upload_without_filename_creates_yt (exc_text : PyError -> string) (t : Tree)
    (fn : option string) (c : string) :
  fn = None \/ fn = Some EmptyString ->
  is_dir_at t (t_cwd t) = true -> is_file_at t (root_res t yt_dir) = false ->
  exists t1, upload_file_to_yt exc_text t fn c = (t1, YtError 400 "No filename provided") /\
    is_dir_at t1 (root_res t yt_dir) = true /\
    forall q, q <> root_res t yt_dir -> node_at t1 q = node_at t q.
Proof.
  intros Hfn Hc Hf. destruct (mkdir_yt t Hc Hf) as (t1 & Hm & _ & Hd & Ho & _).
  exists t1. unfold upload_file_to_yt. rewrite Hm.
  destruct Hfn as [-> | ->]; auto.
Qed.

Lemma upload_without_filename_creates_yt_witness :
  exists t1,
    upload_file_to_yt (fun _ => EmptyString)
      (mkTree ["srv"; "app"]%string [(["srv"], NDir); (["srv"; "app"], NDir)]%string)
      (Some EmptyString) "data" = (t1, YtError 400 "No filename provided") /\
    is_dir_at t1 ["srv"; "app"; "yt"]%string = true.
Proof.
  assert (H1 : Some EmptyString = None \/ Some EmptyString = Some EmptyString) by (right; reflexivity).
  destruct (upload_without_filename_creates_yt (fun _ => EmptyString)
              (mkTree ["srv"; "app"]%string [(["srv"], NDir); (["srv"; "app"], NDir)]%string)
              (Some EmptyString) "data" H1 eq_refl eq_refl) as (t1 & Hu & Hd & _).
  exists t1. exact (conj Hu Hd).
Defined.








(* ------------------------------------------------------------------ *)
(** ** The scheduled job, the strategies' manifest, the first day *)

(** X18: [merge_today_videos_job] changes the world exactly as the endpoint
    [merge_today_videos] called without a date, and the outcome it logs
    is the one the endpoint answers with. *)
Theorem merge_today_videos_job_as_endpoint (decimal : N -> option nat) (root_abs : string)
    (ffmpeg : Mode -> list Path -> Path -> World -> RunOutcome) (now : Date) (w : World) :
  fst (merge_today_videos_job decimal root_abs ffmpeg now w) =
    fst (merge_today_videos decimal root_abs ffmpeg now None w) /\
  match snd (merge_today_videos_job decimal root_abs ffmpeg now w) with
  | JobNoRoot =>
      snd (merge_today_videos decimal root_abs ffmpeg now None w) = MergeErr 404 "n8n_ffmpeg folder not found"
  | JobNoVideos =>
      snd (merge_today_videos decimal root_abs ffmpeg now None w) =
        MergeErr 404 ("No video files found for " ++ strftime_date now)
  | JobMerged r =>
      snd (merge_today_videos decimal root_abs ffmpeg now None w) =
        respond (strftime_date now) (ordered_candidates decimal (w_entries w) (strftime_date now)) r
  end.
Proof.
  unfold merge_today_videos_job, merge_today_videos, resolve_date. cbv beta iota zeta.
  destruct (w_root_exists w); cbn [negb]; [|split; reflexivity].
  destruct (discover decimal (w_entries w) (strftime_date now)); [split; reflexivity|].
  destruct (merge_videos_fast _ _ _ _ _) as [w1 r1].
  destruct r1 as [[msg of sz mb|msg]|e]; try (split; reflexivity).
  destruct (merge_videos_sync _ _ _ _ _) as [w2 r2]. split; reflexivity.
Qed.

Lemma merge_strategy_removes_manifest_witness :
  forallb (line_encodable sample_root) (ordered_candidates ucd14_decimal sample_entries "2024-05-01") = true /\
  w_tmp (fst (merge_strategy sample_root ffmpeg_fast_fails FastCopy
                (ordered_candidates ucd14_decimal sample_entries "2024-05-01") (output_path_for "2024-05-01")
                sample_world)) = w_tmp sample_world.
Proof.
  assert (H1 : forallb (line_encodable sample_root) (ordered_candidates ucd14_decimal sample_entries "2024-05-01") = true)
    by (vm_compute; reflexivity).
  assert (H2 : merge_strategy sample_root ffmpeg_fast_fails FastCopy
                 (ordered_candidates ucd14_decimal sample_entries "2024-05-01") (output_path_for "2024-05-01")
                 sample_world =
               (fst (merge_strategy sample_root ffmpeg_fast_fails FastCopy
                       (ordered_candidates ucd14_decimal sample_entries "2024-05-01") (output_path_for "2024-05-01")
                       sample_world),
                snd (merge_strategy sample_root ffmpeg_fast_fails FastCopy
                       (ordered_candidates ucd14_decimal sample_entries "2024-05-01") (output_path_for "2024-05-01")
                       sample_world))) by apply surjective_pairing.
  destruct (merge_strategy_removes_manifest sample_root ffmpeg_fast_fails FastCopy _ _ _ _ _ H1 H2)
    as (_ & _ & H3).
  exact (conj H1 H3).
Defined.










Lemma plain_name_extend (base x : string) :
  base = n8n_dir \/ base = yt_dir -> x <> EmptyString -> has_slash x = false ->
  plain_name (base ++ x) = true.
Proof.
  intros Hb Hx Hxs.
  assert (Hlen : String.length x >= 1) by (destruct x; [congruence|simpl; lia]).
  assert (Hblen : String.length base >= 2) by (destruct Hb as [-> | ->]; simpl; lia).
  assert (Hbs : has_slash base = false) by (destruct Hb as [-> | ->]; reflexivity).
  apply plain_name_spec. rewrite has_slash_app, Hbs, Hxs. repeat split; intros E;
    apply (f_equal String.length) in E; rewrite str_length_append in E; simpl in E; lia.
Qed.

Lemma zip_arcname_dotdot (b f : string) :
  plain_name b = true -> plain_name f = true ->
  zip_arcname (".." ++ String "/"%char (b ++ String "/"%char f)) =
    Some (".." ++ String "/"%char (b ++ String "/"%char f))%string.
Proof.
  intros Hb Hf.
  assert (Hsp : split_slash (".." ++ String "/"%char (b ++ String "/"%char f)) = [".."%string; b; f]).
  { rewrite !split_slash_app_slash.
    apply plain_name_spec in Hb as (Hb & _), Hf as (Hf & _).
    now rewrite (split_slash_no_slash b Hb), (split_slash_no_slash f Hf). }
  apply plain_name_spec in Hb as (_ & Hb1 & Hb2 & Hb3), Hf as (_ & Hf1 & Hf2 & Hf3).
  apply String.eqb_neq in Hb1, Hb2, Hb3, Hf1, Hf2, Hf3.
  unfold zip_arcname, normpath. rewrite Hsp. cbn [fold_left]. unfold normpath_step.
  rewrite Hb1, Hb2, Hb3, Hf1, Hf2, Hf3. reflexivity.
Qed.

(** X10: [download_multiple] packs a file of a sibling folder whose name
    extends [n8n_ffmpeg], selected as [../n8n_ffmpeg<x>/<f>], under that
    very name: the archive member's name climbs out of the folder the
    archive is extracted into.  The selected path has no NUL byte, its
    resolved form is a path the system takes, and the file's modification
    time is one a ZIP entry holds (else the answer is a 500). *)
Theorem download_multiple_sibling_member (exc_text : PyError -> string)
    (zip_time_ok : list string -> bool) (t : Tree) (stamp x f : string) (sz : nat) :
  x <> EmptyString -> has_slash x = false -> plain_name f = true ->
  node_at t (t_cwd t ++ [(n8n_dir ++ x)%string; f]) = Some (NFile sz) ->
  has_nul ("../" ++ n8n_dir ++ x ++ "/" ++ f) = false ->
  os_path_ok (str_abs (t_cwd t ++ [(n8n_dir ++ x)%string; f])) = true ->
  zip_time_ok (t_cwd t ++ [(n8n_dir ++ x)%string; f]) = true ->
  download_multiple exc_text zip_time_ok t stamp [("../" ++ n8n_dir ++ x ++ "/" ++ f)%string] =
  ZipStream ("n8n_files_" ++ stamp ++ ".zip")%string
    [(("../" ++ n8n_dir ++ x ++ "/" ++ f)%string, t_cwd t ++ [(n8n_dir ++ x)%string; f])].
Proof.
  intros Hx Hxs Hf Hn _ _ Hzt.
  destruct (sibling_target t n8n_dir x f (or_introl eq_refl) Hx Hxs Hf) as (Ht & Ha & _ & _).
  assert (Hbx := plain_name_extend n8n_dir x (or_introl eq_refl) Hx Hxs).
  assert (Hz : zip_arcname ("../" ++ n8n_dir ++ x ++ "/" ++ f) =
               Some ("../" ++ n8n_dir ++ x ++ "/" ++ f)%string).
  { assert (Hs : ("../" ++ n8n_dir ++ x ++ "/" ++ f)%string =
                 (".." ++ String "/"%char ((n8n_dir ++ x) ++ String "/"%char f))%string).
    { change ("../" ++ n8n_dir ++ x ++ "/" ++ f)%string
        with (".." ++ String "/"%char (n8n_dir ++ x ++ String "/"%char f))%string.
      now rewrite str_append_assoc. }
    rewrite Hs. now apply zip_arcname_dotdot. }
  unfold download_multiple. cbn [zip_members]. rewrite Ht, Ha.
  unfold exists_at, is_file_at. rewrite Hn. cbn [negb]. rewrite Hz, Hzt. reflexivity.
Qed.

Lemma download_multiple_sibling_member_witness :
  os_path_ok (str_abs (t_cwd sample_tree ++ [(n8n_dir ++ "_backup")%string; "old.mp4"%string])) = true /\
  download_multiple (fun _ => EmptyString) (fun _ => true) sample_tree "20241015_120000"
    [("../" ++ n8n_dir ++ "_backup" ++ "/" ++ "old.mp4")%string] =
  ZipStream "n8n_files_20241015_120000.zip"
    [("../n8n_ffmpeg_backup/old.mp4"%string, ["srv"; "app"; "n8n_ffmpeg_backup"; "old.mp4"]%string)].
Proof.
  assert (H6 : os_path_ok (str_abs (t_cwd sample_tree ++
                 [(n8n_dir ++ "_backup")%string; "old.mp4"%string])) = true)
    by (vm_compute; reflexivity).
  exact (conj H6 (download_multiple_sibling_member (fun _ => EmptyString) (fun _ => true) sample_tree
           "20241015_120000" "_backup" "old.mp4" 100 ltac:(discriminate) eq_refl eq_refl eq_refl
           eq_refl H6 eq_refl)).
Defined.
